(** * Verification of the QAI Hub helper scripts

    Shallow embedding of [scripts/qaihub_download_models.py] (the batch
    exporter) and [scripts/qaihub_compile.py] (the compile helper).

    Python [str] values are modelled as [string]; a character is a code
    point below 256 (an [ascii]).  An [int] is a [Z].  A [float] is
    modelled by the rational it denotes, with exact subtraction: the
    difference of two floats is rounded, but its sign is the sign of the
    exact difference, and the statements below are about that sign only.
    Calls that leave the process (the [qai-hub] command line tool, the export
    subprocess, the vendor SDK, the clock, the file system) are modelled by
    their outcome, which the functions below take as an argument. *)

From Stdlib Require Import ZArith QArith Ascii String DecimalString.
From stdpp Require Import base gmap strings list sorting.

Local Open Scope Z_scope.

(** ** Python string operations used by the scripts *)

Module PyStr.

(** [str.lower] on one code point below 256: A-Z and the upper case
    letters of Latin-1 (192-222 without the multiplication sign 215). *)
Definition lower_char (c : ascii) : ascii :=
  let n := N_of_ascii c in
  if ((65 <=? n) && (n <=? 90)
      || (192 <=? n) && (n <=? 222) && negb (n =? 215))%N
  then ascii_of_N (n + 32) else c.

(** [str.isspace] on one code point below 256. *)
Definition isspace (c : ascii) : bool :=
  let n := N_of_ascii c in
  ((9 <=? n) && (n <=? 13) || (28 <=? n) && (n <=? 32)
   || (n =? 133) || (n =? 160))%N.

Fixpoint map_chars (f : ascii → ascii) (s : string) : string :=
  match s with
  | EmptyString => EmptyString
  | String c t => String (f c) (map_chars f t)
  end.

(** [s.lower()] *)
Definition lower : string → string := map_chars lower_char.

(** [s.replace(a, b)] for one-character [a] and [b]. *)
Definition replace_char (a b : ascii) : string → string :=
  map_chars (λ c, if Ascii.eqb c a then b else c).

(** [s.lstrip()], [s.rstrip()] and [s.strip()] *)
Fixpoint lstrip (s : string) : string :=
  match s with
  | EmptyString => EmptyString
  | String c t => if isspace c then lstrip t else s
  end.

Fixpoint rstrip (s : string) : string :=
  match s with
  | EmptyString => EmptyString
  | String c t =>
      match rstrip t with
      | EmptyString => if isspace c then EmptyString else String c EmptyString
      | t' => String c t'
      end
  end.

Definition strip (s : string) : string := rstrip (lstrip s).

(** [s.startswith(p)] *)
Definition startswith (p s : string) : bool := String.prefix p s.

(** [sub in s] *)
Fixpoint contains (sub s : string) : bool :=
  String.prefix sub s
  || match s with
     | EmptyString => false
     | String _ t => contains sub t
     end.

(** [s.split(sep)] for a one-character [sep]: never the empty list. *)
Fixpoint split_char (sep : ascii) (s : string) : list string :=
  match s with
  | EmptyString => [EmptyString]
  | String c t =>
      if Ascii.eqb c sep then EmptyString :: split_char sep t
      else match split_char sep t with
           | h :: r => String c h :: r
           | [] => [String c EmptyString]
           end
  end.

(** [s.split()]: the maximal runs of characters that are not white space. *)
Fixpoint split_ws (s : string) : list string :=
  match s with
  | EmptyString => []
  | String c t =>
      if isspace c then split_ws t
      else match t with
           | EmptyString => [String c EmptyString]
           | String d _ =>
               if isspace d then String c EmptyString :: split_ws t
               else match split_ws t with
                    | h :: r => String c h :: r
                    | [] => [String c EmptyString]
                    end
           end
  end.

(** [s[:n]] *)
Definition take (n : nat) (s : string) : string := String.substring 0 n s.

(** [len(s)] *)
Definition len (s : string) : Z := Z.of_nat (String.length s).

(** [str(n)] for an [int] *)
Definition of_int (n : Z) : string := NilZero.string_of_int (Z.to_int n).

(** The characters of [s] up to the first [stop], that one excluded. *)
Fixpoint take_until (stop : ascii) (s : string) : string :=
  match s with
  | EmptyString => EmptyString
  | String c t => if Ascii.eqb c stop then EmptyString
                  else String c (take_until stop t)
  end.

Fixpoint drop (n : nat) (s : string) : string :=
  match n, s with
  | O, _ => s
  | S n', String _ t => drop n' t
  | S _, EmptyString => EmptyString
  end.

(** [os.path.join(a, b)], the POSIX version. *)
Definition path_join (a b : string) : string :=
  if startswith "/" b then b
  else if bool_decide (a = "") || startswith "/" (String.rev a)
       then a +:+ b
       else a +:+ "/" +:+ b.

End PyStr.

(** Outcome of a call that can raise: the value, or the exception with
    [str(e)]. *)
Inductive py (A : Type) :=
| Ret (a : A)
| Exc (msg : string).
Arguments Ret {A} a.
Arguments Exc {A} msg.

(** ** The batch exporter, [qaihub_download_models.py] *)

Module Exporter.
Import PyStr.

Definition DEFAULT_MODELS : list string :=
  ["stable_diffusion_v2_1"; "llama_v3_2_3b_instruct"].

Definition alias_items : list (string * string) :=
  [ ("stable-diffusion-v2.1", "stable_diffusion_v2_1");
    ("stable_diffusion_v2.1", "stable_diffusion_v2_1");
    ("sd-v2.1", "stable_diffusion_v2_1");
    ("stable-diffusion-v1.5", "stable_diffusion_v1_5");
    ("stable_diffusion_v1.5", "stable_diffusion_v1_5");
    ("sd-v1.5", "stable_diffusion_v1_5");
    ("llama-v3.2-3b-instruct", "llama_v3_2_3b_instruct");
    ("llama-3.2-3b", "llama_v3_2_3b_instruct");
    ("llama3.2-3b", "llama_v3_2_3b_instruct");
    ("controlnet-canny", "controlnet_canny");
    ("controlnet", "controlnet_canny") ].

(** The dict [MODEL_ALIASES]. *)
Definition MODEL_ALIASES : gmap string string := list_to_map alias_items.

(** [requested.lower().replace("-", "_").replace(".", "_")] *)
Definition normalize (requested : string) : string :=
  replace_char "." "_" (replace_char "-" "_" (lower requested)).

(** [requested.lower().replace("_", "-")] *)
Definition alias_key (requested : string) : string :=
  replace_char "_" "-" (lower requested).

(** One alias check: [if key in MODEL_ALIASES: resolved = ...;
    if resolved in available: return resolved]. *)
Definition alias_lookup (key : string) (available : list string)
  : option string :=
  match MODEL_ALIASES !! key with
  | Some resolved =>
      if bool_decide (resolved ∈ available) then Some resolved else None
  | None => None
  end.

(** The loop [for model in available: if normalized in model or
    model in normalized: return model]. *)
Fixpoint fuzzy_match (normalized : string) (available : list string)
  : option string :=
  match available with
  | [] => None
  | model :: rest =>
      if contains normalized model || contains model normalized
      then Some model
      else fuzzy_match normalized rest
  end.

Definition resolve_model_name (requested : string) (available : list string)
  : option string :=
  let normalized := normalize requested in
  if bool_decide (normalized ∈ available) then Some normalized
  else match alias_lookup (alias_key requested) available with
       | Some resolved => Some resolved
       | None =>
           match alias_lookup normalized available with
           | Some resolved => Some resolved
           | None => fuzzy_match normalized available
           end
       end.


(** *** Device selection *)

(** Outcome of [subprocess.run(..., capture_output=True, text=True)]:
    the completed process, or the exception it raised with [str(e)]. *)
Inductive exn_kind := FileNotFound | Timeout | OtherExn.

Inductive run_outcome :=
| Completed (returncode : Z) (stdout stderr : string)
| Raised (kind : exn_kind) (msg : string).

Definition validate_qaihub_configured (run : run_outcome) : bool :=
  match run with
  | Completed returncode stdout _ =>
      if bool_decide (returncode ≠ 0) then false
      else if bool_decide (strip stdout = "") then false
      else true
  | Raised _ _ => false
  end.

(** One alternative of the pattern, [brand[^\|]+], tried at the start
    of [s]: greedy, and at least one character has to follow the brand. *)
Definition match_brand (brand s : string) : option string :=
  if startswith brand s then
    match take_until "|" (drop (String.length brand) s) with
    | EmptyString => None
    | body => Some (brand +:+ body)
    end
  else None.

Definition match_here (s : string) : option string :=
  match match_brand "Snapdragon" s with
  | Some m => Some m
  | None =>
      match match_brand "Samsung" s with
      | Some m => Some m
      | None => match_brand "Google" s
      end
  end.

(** [re.search(r'(Snapdragon[^\|]+|Samsung[^\|]+|Google[^\|]+)', s)]:
    group 1 of the leftmost match. *)
Fixpoint re_search (s : string) : option string :=
  match match_here s with
  | Some m => Some m
  | None =>
      match s with
      | EmptyString => None
      | String _ t => re_search t
      end
  end.

(** The body of the parsing loop for one line of the listing. *)
Definition parse_line (raw : string) : option (string * string) :=
  let line := strip raw in
  if bool_decide (line = "") || startswith "-" line
     || startswith "Device" line
  then None
  else match split_ws line with
       | [] => None
       | part0 :: _ =>
           let device_name :=
             if contains "Snapdragon" line || contains "Galaxy" line
                || contains "Pixel" line
             then match re_search line with
                  | Some m => strip m
                  | None => part0
                  end
             else part0 in
           Some (device_name, line)
       end.

Definition newline : ascii := ascii_of_nat 10.

Definition parse_devices (stdout : string) : list (string * string) :=
  omap parse_line (split_char newline (strip stdout)).

Definition is_priority1 (d : string * string) : bool :=
  contains "Snapdragon X Elite" d.2 && contains "Windows" (lower d.2).

Definition is_priority2 (d : string * string) : bool :=
  contains "Snapdragon X Elite" d.2.

Definition is_priority3 (d : string * string) : bool :=
  contains "Snapdragon" d.2 && contains "Windows" (lower d.2).

Definition reason1 : string := "Snapdragon X Elite + Windows (preferred)".
Definition reason2 : string := "Snapdragon X Elite".
Definition reason3 : string := "Windows Snapdragon device".
Definition reason4 : string :=
  "First available device (no Snapdragon X Elite found)".

Definition select_from (devices : list (string * string))
  : string * string :=
  match devices with
  | [] => ("", "No devices found")
  | first :: _ =>
      match List.find is_priority1 devices with
      | Some d => (d.1, reason1)
      | None =>
          match List.find is_priority2 devices with
          | Some d => (d.1, reason2)
          | None =>
              match List.find is_priority3 devices with
              | Some d => (d.1, reason3)
              | None => (first.1, reason4)
              end
          end
      end
  end.

Definition auto_select_device (run : run_outcome) : string * string :=
  match run with
  | Completed returncode stdout _ =>
      if bool_decide (returncode ≠ 0)
      then ("", "qai-hub list-devices failed")
      else select_from (parse_devices stdout)
  | Raised _ msg => ("", "Error selecting device: " +:+ msg)
  end.

(** *** Catalog discovery *)

(** What [pkgutil.iter_modules] and the two [os.path.exists] probes
    report for one entry of the models package. *)
Record module_info := {
  modname : string;
  ispkg : bool;
  has_export_py : bool;
  has_init_py : bool
}.

(** [scan] is the outcome of importing the package and iterating over
    its modules; any exception gives the empty catalog. *)
Definition discover_available_models (scan : py (list module_info))
  : list string :=
  match scan with
  | Ret infos =>
      merge_sort String.le
        (modname <$>
           filter (λ m, ispkg m = true
                        ∧ (has_export_py m = true ∨ has_init_py m = true))
                  infos)
  | Exc _ => []
  end.

(** *** Export of one model *)

Record ExportResult := {
  success : bool;
  requested_name : string;
  resolved_name : string;
  device : string;
  output_path : string;
  duration_seconds : Q;
  error_msg : string
}.

Definition set_requested_name (r : ExportResult) (name : string)
  : ExportResult :=
  {| success := success r; requested_name := name;
     resolved_name := resolved_name r; device := device r;
     output_path := output_path r;
     duration_seconds := duration_seconds r; error_msg := error_msg r |}.

(** What one call of [export_model] meets outside the process.  The
    three clock fields are the values [time.time()] returns at entry, after
    the export subprocess has returned, and inside an [except] block. *)
Record ExportEnv := {
  time_start : Q;
  time_after_run : Q;
  time_in_handler : Q;
  getcwd : string;
  makedirs : string → py unit;
  help_run : run_outcome;
  export_run : list string → Z → run_outcome;
  dir_has_files : string → py bool;
  copytree : string → string → py unit
}.

Definition detect_output_arg_style (help : run_outcome) : string :=
  match help with
  | Completed _ stdout stderr =>
      let help_text := stdout +:+ stderr in
      if contains "--output-dir" help_text then "--output-dir"
      else if contains "--output_dir" help_text then "--output_dir"
      else "--output-dir"
  | Raised _ _ => "--output-dir"
  end.

Section export_model.
Variables (model_name device_arg output_base target_runtime : string).
Variable timeout_seconds : Z.
Variable env : ExportEnv.

Definition output_dir : string := path_join output_base model_name.

Definition failed (duration : Q) (msg : string) : ExportResult :=
  {| success := false; requested_name := model_name;
     resolved_name := model_name; device := device_arg;
     output_path := ""; duration_seconds := duration;
     error_msg := msg |}.

Definition succeeded (duration : Q) (msg : string) : ExportResult :=
  {| success := true; requested_name := model_name;
     resolved_name := model_name; device := device_arg;
     output_path := output_dir; duration_seconds := duration;
     error_msg := msg |}.

(** [except Exception as e] *)
Definition on_exception (msg : string) : ExportResult :=
  failed (time_in_handler env - time_start env)%Q msg.

(** [except subprocess.TimeoutExpired] *)
Definition on_timeout : ExportResult :=
  failed (time_in_handler env - time_start env)%Q
         ("Timeout after " +:+ of_int timeout_seconds +:+ "s").

Definition possible_dirs : list string :=
  [ path_join (getcwd env) "build";
    path_join (getcwd env) model_name;
    path_join (getcwd env) (model_name +:+ "_export") ].

(** The loop over [possible_dirs] and the fall through after it. *)
Fixpoint probe_fallbacks (duration : Q) (dirs : list string)
  : ExportResult :=
  match dirs with
  | [] => succeeded duration "Export succeeded but output location unclear"
  | pdir :: rest =>
      match dir_has_files env pdir with
      | Exc msg => on_exception msg
      | Ret true =>
          match copytree env pdir output_dir with
          | Exc msg => on_exception msg
          | Ret _ => succeeded duration ""
          end
      | Ret false => probe_fallbacks duration rest
      end
  end.

(** The [else] branch of [if result.returncode == 0]. *)
Definition nonzero_exit_message (stdout stderr : string) : string :=
  let error_msg :=
    if bool_decide (strip stderr = "") then strip stdout
    else strip stderr in
  if 500 <? len error_msg then take 500 error_msg +:+ "..."
  else error_msg.

(** [cmd_with_output] *)
Definition export_command : list string :=
  let output_arg := detect_output_arg_style (help_run env) in
  let cmd :=
    [ "python"; "-m";
      "qai_hub_models.models." +:+ model_name +:+ ".export";
      "--device"; device_arg;
      "--target-runtime"; target_runtime ] in
  cmd ++ [output_arg; output_dir].

Definition export_model : ExportResult :=
  match makedirs env output_dir with
  | Exc msg => on_exception msg
  | Ret _ =>
      match export_run env export_command timeout_seconds with
      | Raised Timeout _ => on_timeout
      | Raised _ msg => on_exception msg
      | Completed returncode stdout stderr =>
          let duration := (time_after_run env - time_start env)%Q in
          if bool_decide (returncode = 0) then
            match dir_has_files env output_dir with
            | Exc msg => on_exception msg
            | Ret true => succeeded duration ""
            | Ret false => probe_fallbacks duration possible_dirs
            end
          else failed duration (nonzero_exit_message stdout stderr)
      end
  end.
End export_model.

(** *** The batch run *)

Record Args := {
  args_models : string;
  args_device : string;
  args_target_runtime : string;
  args_output_base : string;
  args_list_available : bool;
  args_dry_run : bool;
  args_timeout : Z
}.

(** The outside of one run of [main]: the two [qai-hub list-devices]
    calls, the scan of the models package, and what the export of the
    [i]-th requested name meets. *)
Record World := {
  validate_run : run_outcome;
  devices_run : run_outcome;
  models_scan : py (list module_info);
  export_env : nat → ExportEnv
}.

(** [[m.strip() for m in args.models.split(",") if m.strip()]] *)
Definition requested_models (models : string) : list string :=
  strip <$> filter (λ m, strip m ≠ "") (split_char "," models).

Definition not_found (requested device_name : string) : ExportResult :=
  {| success := false; requested_name := requested;
     resolved_name := requested; device := device_name;
     output_path := ""; duration_seconds := 0;
     error_msg := "Model not found in qai_hub_models" |}.

Definition dry_run_result (args : Args) (requested resolved device_name : string)
  : ExportResult :=
  {| success := true; requested_name := requested;
     resolved_name := resolved; device := device_name;
     output_path := args_output_base args +:+ "/" +:+ resolved;
     duration_seconds := 0; error_msg := "(dry-run)" |}.

(** The body of the loop over the requested names; [i] counts from 0. *)
Definition export_one (args : Args) (w : World) (device_name : string)
    (available : list string) (i : nat) (requested : string)
  : ExportResult :=
  match resolve_model_name requested available with
  | None => not_found requested device_name
  | Some resolved =>
      if bool_decide (resolved = "") then not_found requested device_name
      else if args_dry_run args
      then dry_run_result args requested resolved device_name
      else set_requested_name
             (export_model resolved device_name (args_output_base args)
                           (args_target_runtime args) (args_timeout args)
                           (export_env w i))
             requested
  end.

(** [sum(1 for r in results if r.success)] *)
Definition successes (results : list ExportResult) : nat :=
  length (filter (λ r, success r = true) results).

(** Step 2 of [main]: the device given on the command line, or the
    automatic selection; [None] when that one returns no name. *)
Definition select_device (args : Args) (w : World) : option string :=
  if bool_decide (args_device args ≠ "") then Some (args_device args)
  else let '(name, _) := auto_select_device (devices_run w) in
       if bool_decide (name = "") then None else Some name.

(** [main] returns the exit code; the model also returns the list
    [results] that the summary prints (empty when the run stops before
    the export step). *)
Definition main (args : Args) (w : World) : Z * list ExportResult :=
  if negb (validate_qaihub_configured (validate_run w)) then (1, [])
  else
    match select_device args w with
    | None => (1, [])
    | Some device_name =>
        let available := discover_available_models (models_scan w) in
        match available with
        | [] => (1, [])
        | _ :: _ =>
            if args_list_available args then (0, [])
            else
              let results :=
                imap (export_one args w device_name available)
                     (requested_models (args_models args)) in
              if bool_decide (successes results = 0%nat) then (1, results)
              else (0, results)
        end
    end.

(** *** Command line defaults *)

(** [sep.join(l)] *)
Fixpoint join (sep : string) (l : list string) : string :=
  match l with
  | [] => ""
  | [x] => x
  | x :: rest => x +:+ sep +:+ join sep rest
  end.

(** What [parse_args] returns when no option is given. *)
Definition default_args : Args :=
  {| args_models := join "," DEFAULT_MODELS;
     args_device := "";
     args_target_runtime := "precompiled_qnn_onnx";
     args_output_base := "artifacts/qaihub/models";
     args_list_available := false;
     args_dry_run := false;
     args_timeout := 1800 |}.

(** *** Notions used in the statements about the exporter *)

(** A line that the parsing loop of [auto_select_device] skips: blank
    once stripped, a separator, or a header. *)
Definition skipped_line (raw : string) : bool :=
  bool_decide (strip raw = "") || startswith "-" (strip raw)
  || startswith "Device" (strip raw).


(** The two spellings of an alias key. *)
Definition hyphenated (key : string) : string := replace_char "_" "-" key.
Definition underscored (key : string) : string := replace_char "-" "_" key.

(** Every entry of the table is reached by step 2 from both spellings of
    its key, and both spellings normalize like the key. *)
Definition entry_reachable (kv : string * string) : bool :=
  bool_decide (MODEL_ALIASES !! alias_key (hyphenated kv.1) = Some kv.2)
  && bool_decide (MODEL_ALIASES !! alias_key (underscored kv.1) = Some kv.2)
  && bool_decide (normalize (hyphenated kv.1) = normalize kv.1)
  && bool_decide (normalize (underscored kv.1) = normalize kv.1).

(** The two differences of clock readings that [export_model] takes
    are not negative: the wall clock was not set back during the call. *)
Definition clock_not_set_back (e : ExportEnv) : Prop :=
  (time_start e <= time_after_run e)%Q
  ∧ (time_start e <= time_in_handler e)%Q.

(** The results of a run that gets to the export step. *)
Definition export_results (args : Args) (w : World) (device_name : string)
  : list ExportResult :=
  imap (export_one args w device_name
          (discover_available_models (models_scan w)))
       (requested_models (args_models args)).

Definition exit_code (results : list ExportResult) : Z :=
  if bool_decide (successes results = 0%nat) then 1 else 0.


End Exporter.

(** ** The compile helper, [qaihub_compile.py] *)

Module Compile.
Import PyStr.

(** The values the helper puts into the JSON object it prints; the
    lists it prints hold objects whose fields are strings. *)
Inductive json :=
| JBool (b : bool)
| JInt (n : Z)
| JStr (s : string)
| JList (items : list (gmap string string)).

(** The vendor objects, as far as the helper reads them.  An attribute
    that [hasattr] probes is an [option]. *)
Record Device := { dev_name : string; dev_os : string }.

Record Status := {
  st_message : string;
  st_success : bool;
  st_running : option bool
}.

Record Target := { download : string → py unit }.

(** [get_status] answers the [n]-th call on the job object. *)
Record Job := {
  job_id_attr : option string;
  job_str : string;
  get_status : nat → py Status;
  get_target_model : py (option Target)
}.

Record Summary := {
  sum_job_id : option string;
  sum_status : option string;
  sum_name : option string;
  sum_str : string
}.

Record Hub := {
  get_devices : string → py (list Device);
  submit_compile_job : string → Device → string → string → py Job;
  get_job : string → py Job;
  get_job_summaries : Z → py (list Summary)
}.

Record Os := {
  path_exists : string → bool;
  os_makedirs : string → py unit;
  time_int : Z
}.

(** What a command does: the one JSON object it prints, an exception
    that leaves the function unhandled, or a poll loop that is still
    waiting after the given number of status calls. *)
Inductive outcome :=
| Printed (out : gmap string json)
| Crashed (msg : string)
| Polling.

Definition error_json (msg : string) : gmap string json :=
  {[ "ok" := JBool false; "error" := JStr msg ]}.

(** The [while True] loop of [do_compile]; [n] is the number of status
    calls made so far, [fuel] the number of calls still looked at ([Ret None]
    when they are used up with the job still running).  The loop reads
    [st.running] without [hasattr], so a status without that attribute
    raises. *)
Fixpoint poll (job : Job) (result : gmap string json) (fuel n : nat)
  : py (option (gmap string json)) :=
  match fuel with
  | O => Ret None
  | S fuel' =>
      match get_status job n with
      | Exc msg => Exc msg
      | Ret st =>
          if st_success st
          then Ret (Some (<["status" := JStr "success"]> result))
          else match st_running st with
               | None => Exc "AttributeError: running"
               | Some false =>
                   Ret (Some (<["ok" := JBool false]>
                              (<["status" :=
                                   JStr ("failed: " +:+ st_message st)]>
                                 result)))
               | Some true => poll job result fuel' (S n)
               end
      end
  end.

Definition is_ok (result : gmap string json) : bool :=
  match result !! "ok" with
  | Some (JBool b) => b
  | _ => false
  end.

Section commands.
Variables (hub : Hub) (os : Os).

(** The part of [do_compile] after the poll loop. *)
Definition fetch_artifact (job : Job) (out : string)
    (result : gmap string json) : outcome :=
  if is_ok result && bool_decide (out ≠ "") then
    match os_makedirs os out with
    | Exc msg => Crashed msg
    | Ret _ =>
        match get_target_model job with
        | Exc msg => Printed (<["download_error" := JStr msg]> result)
        | Ret None => Printed result
        | Ret (Some target) =>
            let out_file := path_join out "model.bin" in
            match download target out_file with
            | Exc msg => Printed (<["download_error" := JStr msg]> result)
            | Ret _ =>
                Printed (<["artifact_path" := JStr out_file]> result)
            end
        end
    end
  else Printed result.

Definition do_compile (model device options : string) (wait : bool)
    (out : string) (fuel : nat) : outcome :=
  match get_devices hub device with
  | Exc msg => Crashed msg
  | Ret [] => Printed (error_json ("No device found: " +:+ device))
  | Ret (dev :: _) =>
      if negb (startswith "m" model && (3 <? len model))
         && negb (path_exists os model)
      then Printed (error_json ("Model file not found: " +:+ model))
      else
        match submit_compile_job hub model dev
                ("edgemesh-" +:+ of_int (time_int os)) options with
        | Exc msg => Printed (error_json msg)
        | Ret job =>
            let job_id := default (job_str job) (job_id_attr job) in
            let result : gmap string json :=
              {[ "ok" := JBool true;
                 "job_id" := JStr job_id;
                 "job_url" :=
                   JStr ("https://aihub.qualcomm.com/jobs/" +:+ job_id);
                 "status" := JStr "submitted";
                 "device" := JStr device ]} in
            if wait then
              match poll job result fuel 0 with
              | Exc msg => Crashed msg
              | Ret None => Polling
              | Ret (Some result') => fetch_artifact job out result'
              end
            else Printed result
        end
  end.

Definition status_error (job msg : string) : gmap string json :=
  {[ "job_id" := JStr job; "status" := JStr "error";
     "success" := JBool false; "error" := JStr msg ]}.

Definition do_status (job : string) : outcome :=
  match get_job hub job with
  | Exc msg => Printed (status_error job msg)
  | Ret j =>
      match get_status j 0 with
      | Exc msg => Printed (status_error job msg)
      | Ret st =>
          Printed {[ "job_id" := JStr job;
                     "status" := JStr (st_message st);
                     "success" := JBool (st_success st);
                     "running" := JBool (default false (st_running st)) ]}
      end
  end.

Definition do_download (job out : string) : outcome :=
  match get_job hub job with
  | Exc msg => Printed (error_json msg)
  | Ret j =>
      match get_status j 0 with
      | Exc msg => Printed (error_json msg)
      | Ret st =>
          if negb (st_success st)
          then Printed (error_json ("Job not done: " +:+ st_message st))
          else
            match os_makedirs os out with
            | Exc msg => Printed (error_json msg)
            | Ret _ =>
                match get_target_model j with
                | Exc msg => Printed (error_json msg)
                | Ret None =>
                    Printed (error_json "No target model available")
                | Ret (Some target) =>
                    let out_file := path_join out "model.bin" in
                    match download target out_file with
                    | Exc msg => Printed (error_json msg)
                    | Ret _ =>
                        Printed {[ "ok" := JBool true;
                                   "path" := JStr out_file;
                                   "job_id" := JStr job ]}
                    end
                end
            end
      end
  end.

Definition summary_json (s : Summary) : gmap string string :=
  {[ "job_id" := default (sum_str s) (sum_job_id s);
     "status" := default "unknown" (sum_status s);
     "name" := default "" (sum_name s) ]}.

Definition do_list_jobs (limit : Z) : outcome :=
  match get_job_summaries hub limit with
  | Exc msg =>
      Printed {[ "count" := JInt 0; "jobs" := JList [];
                 "error" := JStr msg ]}
  | Ret summaries =>
      let jobs := summary_json <$> summaries in
      Printed {[ "count" := JInt (Z.of_nat (length jobs));
                 "jobs" := JList jobs ]}
  end.

Definition device_json (d : Device) : gmap string string :=
  {[ "name" := dev_name d; "os" := dev_os d ]}.

Definition do_list_devices (name : string) : outcome :=
  match get_devices hub name with
  | Exc msg =>
      Printed {[ "count" := JInt 0; "devices" := JList [];
                 "error" := JStr msg ]}
  | Ret devices =>
      let result := device_json <$> devices in
      Printed {[ "count" := JInt (Z.of_nat (length result));
                 "devices" := JList result ]}
  end.

(** The parsed command line: [args.command] with its options. *)
Inductive command :=
| CmdCompile (model device options : string) (wait : bool) (out : string)
| CmdStatus (job : string)
| CmdDownload (job out : string)
| CmdListJobs (limit : Z)
| CmdListDevices (name : string).

(** The dispatch of [main] once [qai_hub] is imported. *)
Definition run_command (c : command) (fuel : nat) : outcome :=
  match c with
  | CmdCompile model device options wait out =>
      do_compile model device options wait out fuel
  | CmdStatus job => do_status job
  | CmdDownload job out => do_download job out
  | CmdListJobs limit => do_list_jobs limit
  | CmdListDevices name => do_list_devices name
  end.
End commands.

(** The command is [compile]. *)
Definition is_compile (c : command) : bool :=
  match c with
  | CmdCompile _ _ _ _ _ => true
  | _ => false
  end.

(** How the process of a helper ends: [sys.exit] or the end of [main]
    with what went to standard output, an exception nobody handles, or a
    poll loop that is still waiting. *)
Inductive process_end (A : Type) :=
| Exited (code : Z) (printed : A)
| Unhandled (msg : string)
| Waiting.
Arguments Exited {A} code printed.
Arguments Unhandled {A} msg.
Arguments Waiting {A}.

(** [main]: [hub] is [None] when [import qai_hub] raises [ImportError],
    [c] is [None] when no subcommand is given; in that case only the usage
    text is printed, and no object. *)
Definition main (hub : option Hub) (os : Os) (c : option command)
    (fuel : nat) : process_end (option (gmap string json)) :=
  match hub with
  | None =>
      Exited 1
        (Some (error_json "qai_hub not installed. Run: pip install qai-hub"))
  | Some h =>
      match c with
      | None => Exited 1 None
      | Some c =>
          match run_command h os c fuel with
          | Printed out => Exited 0 (Some out)
          | Crashed msg => Unhandled msg
          | Polling => Waiting
          end
      end
  end.

(** A printed object reports a failure: [ok] or [success] is false and
    there is an [error] field. *)
Definition is_failure_json (j : gmap string json) : Prop :=
  (j !! "ok" = Some (JBool false) ∨ j !! "success" = Some (JBool false))
  ∧ is_Some (j !! "error").

End Compile.

(** ** The download helper, [qaihub_download_job.py] *)

Module DownloadJob.
Import PyStr Compile.

(** What the helper writes: the lines on standard output and the lines
    on standard error. *)
Record output := { stdout_lines : list string; stderr_lines : list string }.

Definition main (hub : option Hub) (os : Os) (job out : string)
  : process_end output :=
  match hub with
  | None =>
      Exited 1
        {| stdout_lines := [];
           stderr_lines :=
             ["ERROR: qai_hub not installed. Install with: pip install qai-hub"]
        |}
  | Some h =>
      let fetching := "Fetching job " +:+ job +:+ "..." in
      match get_job h job with
      | Exc msg =>
          Exited 1
            {| stdout_lines := [fetching];
               stderr_lines :=
                 ["ERROR: Failed to fetch job " +:+ job +:+ ": " +:+ msg] |}
      | Ret j =>
          match get_status j 0 with
          | Exc msg => Unhandled msg
          | Ret status =>
              let job_status := "Job status: " +:+ st_message status in
              if negb (st_success status) then
                Exited 1
                  {| stdout_lines := [fetching; job_status];
                     stderr_lines :=
                       ["ERROR: Job did not succeed (status: "
                        +:+ st_message status +:+ ")"] |}
              else
                match os_makedirs os out with
                | Exc msg => Unhandled msg
                | Ret _ =>
                    let downloading :=
                      "Downloading artifacts to " +:+ out +:+ "..." in
                    match get_target_model j with
                    | Exc msg => Unhandled msg
                    | Ret None =>
                        Exited 1
                          {| stdout_lines :=
                               [fetching; job_status; downloading];
                             stderr_lines :=
                               ["ERROR: No target model available (job may have failed)."]
                          |}
                    | Ret (Some target_model) =>
                        let out_file := path_join out "model.bin" in
                        match download target_model out_file with
                        | Exc msg => Unhandled msg
                        | Ret _ =>
                            Exited 0
                              {| stdout_lines :=
                                   [fetching; job_status; downloading;
                                    "Compiled model saved to: " +:+ out_file];
                                 stderr_lines := [] |}
                        end
                    end
                end
          end
      end
  end.

End DownloadJob.

(** ** Concrete inputs for the examples *)

Module Scenario.
Import PyStr Exporter Compile.

(** A listing with a header, a separator, a line for an Android tablet
    with the preferred chipset, the line for the Windows machine with
    that chipset, and a phone. *)
Definition listing : string :=
  "Device                     | OS          | Chipset
---------------------------+-------------+--------
Snapdragon X Elite Tablet  | Android 14  | Snapdragon X Elite
Snapdragon X Elite CRD     | Windows 11  | Snapdragon X Elite
Samsung Galaxy S24         | Android 14  | Snapdragon 8 Gen 3".

(** An environment in which everything succeeds and the export
    subprocess behaves as [run] says. *)
Definition env_with (run : run_outcome) : ExportEnv :=
  {| time_start := 100; time_after_run := 160; time_in_handler := 160;
     getcwd := "/work";
     makedirs := λ _, Ret ();
     help_run := Completed 0 "usage: export [--output-dir DIR]" "";
     export_run := λ _ _, run;
     dir_has_files := λ _, Ret true;
     copytree := λ _ _, Ret () |}.

Fixpoint repeat_char (c : ascii) (n : nat) : string :=
  match n with
  | O => ""
  | S n' => String c (repeat_char c n')
  end.

(** A world in which the tooling is configured, the listing is the one
    above, the catalog has one model, and every export behaves as [e]. *)
Definition world_with (e : ExportEnv) : World :=
  {| validate_run := Completed 0 listing "";
     devices_run := Completed 0 listing "";
     models_scan :=
       Ret [ {| modname := "stable_diffusion_v1_5"; ispkg := true;
                has_export_py := true; has_init_py := true |} ];
     export_env := λ _, e |}.

Definition args_with (models : string) (list_available dry_run : bool)
  : Args :=
  {| args_models := models; args_device := "";
     args_target_runtime := "precompiled_qnn_onnx";
     args_output_base := "artifacts/qaihub/models";
     args_list_available := list_available;
     args_dry_run := dry_run; args_timeout := 1800 |}.

Definition exported : run_outcome := Completed 0 "done" "".

(** An export that succeeds while the wall clock is set back by 50
    seconds. *)
Definition env_clock_set_back : ExportEnv :=
  {| time_start := 100; time_after_run := 50; time_in_handler := 50;
     getcwd := "/work";
     makedirs := λ _, Ret ();
     help_run := Completed 0 "usage: export [--output-dir DIR]" "";
     export_run := λ _ _, exported;
     dir_has_files := λ _, Ret true;
     copytree := λ _ _, Ret () |}.

(** The runs of the examples: an alias and an unknown name, two unknown
    names, listing mode, a dry run, and an export during which the clock is
    set back. *)
Definition world_ok : World := world_with (env_with exported).
Definition args_two : Args := args_with "sd-v1.5,not_a_real_model" false false.
Definition args_one : Args := args_with "sd-v1.5" false false.
Definition world_clock_set_back : World := world_with env_clock_set_back.

(** One export whose subprocess behaves as [run]. *)
Definition export_with (run : run_outcome) : ExportResult :=
  export_model "resnet50" "Samsung Galaxy S24" "out" "tflite" 1800
               (env_with run).

(** Vendor objects for the compile helper. *)
Definition a_device : Device :=
  {| dev_name := "Samsung Galaxy S24 (Family)"; dev_os := "Android 14" |}.

(** A job whose status cannot be fetched. *)
Definition unreachable_job : Job :=
  {| job_id_attr := Some "j123";
     job_str := "Job(j123)";
     get_status := λ _, Exc "ConnectionError: status";
     get_target_model := Ret None |}.

Definition hub_status_fails : Hub :=
  {| get_devices := λ _, Ret [a_device];
     submit_compile_job := λ _ _ _ _, Ret unreachable_job;
     get_job := λ _, Ret unreachable_job;
     get_job_summaries := λ _, Ret [] |}.

Definition hub_devices_fail : Hub :=
  {| get_devices := λ _, Exc "ConnectionError: devices";
     submit_compile_job := λ _ _ _ _, Ret unreachable_job;
     get_job := λ _, Ret unreachable_job;
     get_job_summaries := λ _, Ret [] |}.

Definition an_os : Os :=
  {| path_exists := λ _, true;
     os_makedirs := λ _, Ret ();
     time_int := 1700000000 |}.


(** More listings: a phone before the preferred machine, a phone before
    a Windows machine with another Snapdragon chipset, and a listing without
    device lines. *)
Definition listing_phone_first : string :=
  "Samsung Galaxy S24         | Android 14  | Snapdragon 8 Gen 3
Snapdragon X Elite CRD     | Windows 11  | Snapdragon X Elite".

Definition listing_other_windows : string :=
  "Samsung Galaxy S24         | Android 14  | Snapdragon 8 Gen 3
Snapdragon 8cx Gen 3 CRD   | Windows 11  | Snapdragon 8cx Gen 3".

Definition listing_header_only : string :=
  "Device                     | OS          | Chipset
---------------------------+-------------+--------
".

(** An export that exits with 0 and leaves no file where the export
    looks; there are files in another directory. *)
Definition env_files_elsewhere : ExportEnv :=
  {| time_start := 100; time_after_run := 160; time_in_handler := 160;
     getcwd := "/work";
     makedirs := λ _, Ret ();
     help_run := Completed 0 "usage: export [--output-dir DIR]" "";
     export_run := λ _ _, exported;
     dir_has_files := λ dir, Ret (bool_decide (dir = "/etc"));
     copytree := λ _ _, Ret () |}.

(** A run with the device given on the command line, and a world whose
    device listing fails. *)
Definition args_device_given : Args :=
  {| args_models := "sd-v1.5"; args_device := "Samsung Galaxy S24 (Family)";
     args_target_runtime := "precompiled_qnn_onnx";
     args_output_base := "artifacts/qaihub/models";
     args_list_available := false; args_dry_run := false;
     args_timeout := 1800 |}.

Definition world_listing_fails : World :=
  {| validate_run := validate_run world_ok;
     devices_run := Completed 1 "" "not logged in";
     models_scan := models_scan world_ok;
     export_env := export_env world_ok |}.

(** A job that is running for two polls and then a success, and whose
    compiled model cannot be fetched. *)
Definition slow_job : Job :=
  {| job_id_attr := Some "j456";
     job_str := "Job(j456)";
     get_status := λ n,
       if (n <? 2)%nat
       then Ret {| st_message := "running"; st_success := false;
                   st_running := Some true |}
       else Ret {| st_message := "done"; st_success := true;
                   st_running := Some false |};
     get_target_model := Exc "ConnectionError: target" |}.

Definition hub_slow : Hub :=
  {| get_devices := λ _, Ret [a_device];
     submit_compile_job := λ _ _ _ _, Ret slow_job;
     get_job := λ _, Ret slow_job;
     get_job_summaries := λ _, Ret [] |}.

Definition os_without_files : Os :=
  {| path_exists := λ _, false;
     os_makedirs := λ _, Ret ();
     time_int := 1700000000 |}.

End Scenario.

(** ** Facts about the string operations *)

Section string_facts.
Import PyStr.

Lemma prefix_nil (s : string) : String.prefix "" s = true.
Proof. by destruct s. Qed.

Lemma prefix_refl (s : string) : String.prefix s s = true.
Proof.
  induction s as [|c s IH]; [done|]. simpl.
  destruct (ascii_dec c c); [done|congruence].
Qed.

Lemma app_nil (s : string) : "" +:+ s = s.
Proof. reflexivity. Qed.

Lemma app_cons (c : ascii) (s t : string) :
  String c s +:+ t = String c (s +:+ t).
Proof. reflexivity. Qed.

Lemma prefix_app (s t : string) : String.prefix s (s +:+ t) = true.
Proof.
  induction s as [|c s IH]; [apply prefix_nil|].
  rewrite app_cons. simpl.
  destruct (ascii_dec c c); [done|congruence].
Qed.

Lemma contains_prefix (sub s : string) :
  String.prefix sub s = true → contains sub s = true.
Proof. intros H. destruct s; cbn [contains]; by rewrite H. Qed.

Lemma contains_refl (s : string) : contains s s = true.
Proof. apply contains_prefix, prefix_refl. Qed.

(** [sub in a + sub + b] *)
Lemma contains_app (sub a b : string) :
  contains sub (a +:+ sub +:+ b) = true.
Proof.
  induction a as [|c a IH].
  - rewrite app_nil. apply contains_prefix, prefix_app.
  - rewrite app_cons. cbn [contains]. rewrite IH. apply orb_true_r.
Qed.

Lemma lower_char_not_W (c : ascii) : lower_char c ≠ "W"%char.
Proof. destruct c as [[] [] [] [] [] [] [] []]; vm_compute; discriminate. Qed.

(** A lower-cased line never contains the capitalised word. *)
Lemma lower_no_Windows (s : string) : contains "Windows" (lower s) = false.
Proof.
  induction s as [|c s IH]; [done|].
  change (lower (String c s)) with (String (lower_char c) (lower s)).
  cbn [contains]. rewrite IH, orb_false_r. cbn [String.prefix].
  destruct (ascii_dec "W" (lower_char c)) as [E|]; [|done].
  by destruct (lower_char_not_W c).
Qed.

Lemma length_take (n : nat) (s : string) :
  (String.length (take n s) ≤ n)%nat.
Proof.
  unfold take. revert s.
  induction n as [|n IH]; intros [|c s]; simpl; try lia.
  specialize (IH s). lia.
Qed.

Lemma length_app (s t : string) :
  String.length (s +:+ t) = (String.length s + String.length t)%nat.
Proof.
  induction s as [|c s IH]; [done|].
  rewrite app_cons. simpl. by rewrite IH.
Qed.

End string_facts.

(** ** The model name resolver *)

Section resolver.
Import PyStr Exporter.

Implicit Types (requested normalized key resolved : string).
Implicit Types (available : list string).

Lemma alias_lookup_Some key available resolved :
  alias_lookup key available = Some resolved ↔
  MODEL_ALIASES !! key = Some resolved ∧ resolved ∈ available.
Proof.
  unfold alias_lookup. destruct (MODEL_ALIASES !! key) as [v|].
  - destruct (bool_decide_reflect (v ∈ available)) as [Hin|Hin].
    + split; [by intros [= <-]|by intros [[= <-] _]].
    + split; [done|]. by intros [[= <-] ?].
  - split; [done|]. by intros [? _].
Qed.

Lemma alias_lookup_None key available :
  alias_lookup key available = None ↔
  ∀ resolved, MODEL_ALIASES !! key = Some resolved → resolved ∉ available.
Proof.
  unfold alias_lookup. destruct (MODEL_ALIASES !! key) as [v|].
  - destruct (bool_decide_reflect (v ∈ available)) as [Hin|Hin].
    + split; [done|]. intros H. by destruct (H v).
    + split; [|done]. by intros _ resolved [= <-].
  - split; [|done]. by intros _ resolved.
Qed.

Lemma fuzzy_match_Some normalized available model :
  fuzzy_match normalized available = Some model →
  model ∈ available
  ∧ (contains normalized model = true ∨ contains model normalized = true).
Proof.
  induction available as [|m rest IH]; simpl; [done|].
  destruct (contains normalized m || contains m normalized) eqn:E.
  - intros [= <-]. split; [left|]. by apply orb_true_iff.
  - intros [? ?]%IH. split; [by right|done].
Qed.

Lemma fuzzy_match_None normalized available :
  fuzzy_match normalized available = None ↔
  ∀ model, model ∈ available →
    contains normalized model = false ∧ contains model normalized = false.
Proof.
  induction available as [|m rest IH]; simpl.
  - split; [|done]. intros _ model Hin. by apply elem_of_nil in Hin.
  - destruct (contains normalized m || contains m normalized) eqn:E.
    + split; [done|]. intros H.
      destruct (H m) as [H1 H2]; [left|]. by rewrite H1, H2 in E.
    + apply orb_false_iff in E. rewrite IH. split.
      * intros H model [->|Hin]%elem_of_cons; auto.
      * intros H model Hin. apply H. by right.
Qed.

(** Step 1 of the resolver: a normalized form that is in the catalog is
    returned whatever the alias table says. *)
Lemma resolve_normalized_member requested available :
  normalize requested ∈ available →
  resolve_model_name requested available = Some (normalize requested).
Proof. intros H. unfold resolve_model_name. by rewrite bool_decide_eq_true_2. Qed.

(** Whatever the resolver returns is a catalog member. *)
Lemma resolve_member requested available resolved :
  resolve_model_name requested available = Some resolved →
  resolved ∈ available.
Proof.
  unfold resolve_model_name. case_bool_decide as Hn; [by intros [= <-]|].
  destruct (alias_lookup (alias_key requested) available) eqn:E1.
  { intros [= <-]. by apply alias_lookup_Some in E1 as [_ ?]. }
  destruct (alias_lookup (normalize requested) available) eqn:E2.
  { intros [= <-]. by apply alias_lookup_Some in E2 as [_ ?]. }
  by intros [? _]%fuzzy_match_Some.
Qed.

(** Step 2 of the resolver. *)
Lemma resolve_via_alias requested available resolved :
  MODEL_ALIASES !! alias_key requested = Some resolved →
  resolved ∈ available →
  normalize requested ∉ available ∨ normalize requested = resolved →
  resolve_model_name requested available = Some resolved.
Proof.
  intros Hk Hin Hn. unfold resolve_model_name.
  case_bool_decide as Hm; [destruct Hn; [done|congruence]|].
  assert (alias_lookup (alias_key requested) available = Some resolved) as ->;
    [|done].
  by apply alias_lookup_Some.
Qed.

Lemma alias_items_reachable : forallb entry_reachable alias_items = true.
Proof. vm_compute. reflexivity. Qed.

Lemma alias_items_NoDup : NoDup alias_items.*1.
Proof. apply (bool_decide_unpack _). vm_compute. exact I. Qed.

Lemma alias_entry key resolved :
  MODEL_ALIASES !! key = Some resolved → entry_reachable (key, resolved) = true.
Proof.
  intros H%elem_of_list_to_map_2%list_elem_of_In.
  pose proof alias_items_reachable as Hall.
  rewrite forallb_forall in Hall. by apply Hall.
Qed.

(** C2 (as the code has it).
    A requested name that is in the catalog verbatim and is already in
    normalized form (lower case, no hyphen, no period) resolves to itself,
    whatever the alias table maps that spelling to. *)
Theorem resolve_exact_priority requested available :
  requested ∈ available →
  normalize requested = requested →
  resolve_model_name requested available = Some requested.
Proof.
  intros Hin Hnorm. rewrite <- Hnorm at 2.
  apply resolve_normalized_member. by rewrite Hnorm.
Qed.

(** The alias table maps "controlnet" to "controlnet_canny"; with both in
    the catalog the exact name wins. *)
Lemma resolve_exact_priority_witness :
  MODEL_ALIASES !! "controlnet" = Some "controlnet_canny"
  ∧ resolve_model_name "controlnet" ["controlnet"; "controlnet_canny"]
    = Some "controlnet".
Proof.
  split; [reflexivity|].
  apply (resolve_exact_priority "controlnet" ["controlnet"; "controlnet_canny"]).
  - apply (bool_decide_unpack _). vm_compute. exact I.
  - reflexivity.
Defined.

(** C2 as stated fails: a catalog name that is not in normalized
    form is not found when requested verbatim. *)
Lemma resolve_verbatim_not_found :
  "ResNet50" ∈ ["ResNet50"]
  ∧ resolve_model_name "ResNet50" ["ResNet50"] = None.
Proof. split; [apply list_elem_of_here|reflexivity]. Qed.

(** C3 (as the code has it).
    For an entry [key ↦ resolved] of the alias table whose value is in the
    catalog, and whose normalized key is not another catalog member (an
    exact match would win), both spellings of the key resolve to the
    value. *)
Theorem resolve_alias_key key resolved available :
  MODEL_ALIASES !! key = Some resolved →
  resolved ∈ available →
  normalize key ∉ available ∨ normalize key = resolved →
  resolve_model_name (hyphenated key) available = Some resolved
  ∧ resolve_model_name (underscored key) available = Some resolved.
Proof.
  intros Hk Hin Hn. apply alias_entry in Hk. unfold entry_reachable in Hk.
  apply andb_prop in Hk as [Hk Hu%bool_decide_eq_true].
  apply andb_prop in Hk as [Hk Hh%bool_decide_eq_true].
  apply andb_prop in Hk as [Hkh%bool_decide_eq_true Hku%bool_decide_eq_true].
  simpl in *.
  split; apply resolve_via_alias; rewrite ?Hh, ?Hu; done.
Qed.

Lemma resolve_alias_key_witness :
  resolve_model_name (hyphenated "sd-v1.5") ["stable_diffusion_v1_5"]
    = Some "stable_diffusion_v1_5"
  ∧ resolve_model_name (underscored "sd-v1.5") ["stable_diffusion_v1_5"]
    = Some "stable_diffusion_v1_5".
Proof.
  apply (resolve_alias_key "sd-v1.5" "stable_diffusion_v1_5"
           ["stable_diffusion_v1_5"]).
  - reflexivity.
  - apply list_elem_of_here.
  - left. apply (bool_decide_unpack _). vm_compute. exact I.
Defined.

(** C3 as stated fails: the key "controlnet" is itself a catalog
    member here, so the exact match is returned and not the mapped value. *)
Lemma resolve_alias_key_shadowed :
  MODEL_ALIASES !! "controlnet" = Some "controlnet_canny"
  ∧ "controlnet_canny" ∈ ["controlnet"; "controlnet_canny"]
  ∧ hyphenated "controlnet" = "controlnet"
  ∧ resolve_model_name "controlnet" ["controlnet"; "controlnet_canny"]
    = Some "controlnet".
Proof.
  split; [reflexivity|]. split; [|split; reflexivity].
  apply (bool_decide_unpack _). vm_compute. exact I.
Qed.

(** C4.
    A requested name whose normalized form is not in the catalog, that
    neither alias lookup (hyphen spelling, underscore spelling) maps to a
    catalog member, and whose normalized form is in no substring relation
    with any catalog entry, is not found. *)
Theorem resolve_not_found requested available :
  normalize requested ∉ available →
  (∀ resolved, MODEL_ALIASES !! alias_key requested = Some resolved →
               resolved ∉ available) →
  (∀ resolved, MODEL_ALIASES !! normalize requested = Some resolved →
               resolved ∉ available) →
  (∀ model, model ∈ available →
            contains (normalize requested) model = false
            ∧ contains model (normalize requested) = false) →
  resolve_model_name requested available = None.
Proof.
  intros Hn Ha1 Ha2 Hf. unfold resolve_model_name.
  rewrite bool_decide_eq_false_2 by done.
  apply alias_lookup_None in Ha1 as ->. apply alias_lookup_None in Ha2 as ->.
  by apply fuzzy_match_None.
Qed.

Lemma resolve_not_found_witness :
  resolve_model_name "not_a_real_model" ["stable_diffusion_v1_5"] = None.
Proof.
  apply (resolve_not_found "not_a_real_model" ["stable_diffusion_v1_5"]).
  - apply (bool_decide_unpack _). vm_compute. exact I.
  - intros resolved H. vm_compute in H. discriminate H.
  - intros resolved H. vm_compute in H. discriminate H.
  - intros model H. apply list_elem_of_singleton in H. subst model.
    split; reflexivity.
Defined.

End resolver.

(** ** The device selector *)

Section selector.
Import PyStr Exporter Scenario.

(** The priority 1 test ["Windows" in line.lower()] looks for a capital
    letter in a lower-cased line, so it never holds. *)
Lemma is_priority1_false (d : string * string) : is_priority1 d = false.
Proof. unfold is_priority1. by rewrite lower_no_Windows, andb_false_r. Qed.

Lemma is_priority3_false (d : string * string) : is_priority3 d = false.
Proof. unfold is_priority3. by rewrite lower_no_Windows, andb_false_r. Qed.

Lemma find_priority1_None (devices : list (string * string)) :
  List.find is_priority1 devices = None.
Proof.
  induction devices as [|d rest IH]; [done|].
  simpl. by rewrite is_priority1_false.
Qed.

Lemma find_priority3_None (devices : list (string * string)) :
  List.find is_priority3 devices = None.
Proof.
  induction devices as [|d rest IH]; [done|].
  simpl. by rewrite is_priority3_false.
Qed.

(** No listing makes the selector answer with the priority 1 reason. *)
Lemma auto_select_never_priority1 (run : run_outcome) :
  (auto_select_device run).2 ≠ reason1.
Proof.
  destruct run as [returncode stdout stderr|kind msg]; simpl; [|done].
  case_bool_decide; [done|]. unfold select_from.
  destruct (parse_devices stdout) as [|first rest] eqn:E; [done|].
  rewrite find_priority1_None, find_priority3_None.
  by destruct (List.find is_priority2 _).
Qed.

(** C1, the code at a listing that has a fully specific line.
    The listing has a line with both "Snapdragon X Elite" and "Windows",
    parsed to the device "Snapdragon X Elite CRD"; the selector returns
    the device of the earlier line that names the chipset only, with the
    priority 2 reason. *)
Theorem auto_select_skips_windows_line :
  ("Snapdragon X Elite CRD",
   "Snapdragon X Elite CRD     | Windows 11  | Snapdragon X Elite")
    ∈ parse_devices listing
  ∧ contains "Snapdragon X Elite"
      "Snapdragon X Elite CRD     | Windows 11  | Snapdragon X Elite" = true
  ∧ contains "Windows"
      "Snapdragon X Elite CRD     | Windows 11  | Snapdragon X Elite" = true
  ∧ auto_select_device (Completed 0 listing "")
    = ("Snapdragon X Elite Tablet", "Snapdragon X Elite").
Proof.
  split; [|split; [|split]]; try reflexivity.
  apply (bool_decide_unpack _). vm_compute. exact I.
Qed.

(** With the fully specific line alone the device is the right one, and
    the reason is still the one of priority 2. *)
Lemma auto_select_single_windows_line :
  auto_select_device
    (Completed 0 "Snapdragon X Elite CRD | Windows 11 | Snapdragon X Elite" "")
  = ("Snapdragon X Elite CRD", "Snapdragon X Elite").
Proof. reflexivity. Qed.

(** A listing without device lines gives a reason and no name. *)
Lemma auto_select_header_only :
  auto_select_device
    (Completed 0 "Device | OS | Chipset
-------+----+--------" "")
  = ("", "No devices found").
Proof. reflexivity. Qed.

End selector.

(** ** The export driver *)

Section export_driver.
Import PyStr Exporter.

Variables (model_name device_name output_base target_runtime : string).
Variable timeout_seconds : Z.
Variable env : ExportEnv.

Lemma probe_fallbacks_resolved_name duration dirs :
  resolved_name
    (probe_fallbacks model_name device_name output_base env duration dirs)
  = model_name.
Proof.
  induction dirs as [|pdir rest IH]; simpl; [done|].
  destruct (dir_has_files env pdir) as [[]|]; [|done..].
  by destruct (copytree env pdir _).
Qed.

Lemma probe_fallbacks_duration duration dirs :
  (0 <= duration)%Q →
  (0 <= time_in_handler env - time_start env)%Q →
  (0 <= duration_seconds
          (probe_fallbacks model_name device_name output_base env
                           duration dirs))%Q.
Proof.
  intros Hd Hh. induction dirs as [|pdir rest IH]; simpl; [done|].
  destruct (dir_has_files env pdir) as [[]|]; [|done..].
  by destruct (copytree env pdir _).
Qed.

(** Every result of [export_model] carries the name it was called with. *)
Lemma export_model_resolved_name :
  resolved_name
    (export_model model_name device_name output_base target_runtime
                  timeout_seconds env)
  = model_name.
Proof.
  unfold export_model.
  destruct (makedirs env _); [|done].
  destruct (export_run env _ _) as [returncode stdout stderr|[] msg];
    [|done..].
  case_bool_decide; [|done].
  destruct (dir_has_files env _) as [[]|]; [done| |done].
  apply probe_fallbacks_resolved_name.
Qed.

Lemma export_model_duration :
  clock_not_set_back env →
  (0 <= duration_seconds
          (export_model model_name device_name output_base target_runtime
                        timeout_seconds env))%Q.
Proof.
  intros [H1%Qle_minus_iff H2%Qle_minus_iff]. unfold export_model.
  destruct (makedirs env _); [|done].
  destruct (export_run env _ _) as [returncode stdout stderr|[] msg];
    [|done..].
  case_bool_decide; [|done].
  destruct (dir_has_files env _) as [[]|]; [done| |done].
  by apply probe_fallbacks_duration.
Qed.

(** C7.
    When the output directory could be created, so that the subprocess is
    started, and that subprocess exceeds the timeout ([subprocess.run]
    raises [TimeoutExpired]), the result is a failure whose message is
    "Timeout after <timeout>s": it contains the decimal spelling of the
    configured timeout. *)
Theorem export_timeout_message (msg : string) :
  makedirs env (output_dir model_name output_base) = Ret () →
  export_run env
    (export_command model_name device_name output_base target_runtime env)
    timeout_seconds = Raised Timeout msg →
  let r := export_model model_name device_name output_base target_runtime
             timeout_seconds env in
  success r = false
  ∧ error_msg r = "Timeout after " +:+ of_int timeout_seconds +:+ "s"
  ∧ contains (of_int timeout_seconds) (error_msg r) = true.
Proof.
  intros Hmk Hrun r. subst r. unfold export_model. rewrite Hmk, Hrun.
  unfold on_timeout, failed. cbn [success error_msg].
  split; [done|]. split; [done|]. apply contains_app.
Qed.

(** C8 (as the code has it).
    When the subprocess exits with a non-zero code the result is a failure;
    its message is the stripped stderr, or the stripped stdout when the
    stripped stderr is empty, cut after 500 characters with "..." appended
    when it is longer than that. *)
Theorem export_nonzero_exit_message (returncode : Z) (stdout stderr : string) :
  makedirs env (output_dir model_name output_base) = Ret () →
  export_run env
    (export_command model_name device_name output_base target_runtime env)
    timeout_seconds = Completed returncode stdout stderr →
  returncode ≠ 0 →
  let r := export_model model_name device_name output_base target_runtime
             timeout_seconds env in
  let text :=
    if bool_decide (strip stderr = "") then strip stdout else strip stderr in
  success r = false
  ∧ error_msg r
    = (if bool_decide (String.length text ≤ 500)%nat then text
       else take 500 text +:+ "...")
  ∧ (String.length (error_msg r) ≤ 503)%nat.
Proof.
  intros Hmk Hrun Hrc r text. subst r. unfold export_model.
  rewrite Hmk, Hrun. rewrite bool_decide_eq_false_2 by done. simpl.
  unfold nonzero_exit_message, len. fold text.
  split; [done|].
  destruct (Z.ltb_spec 500 (Z.of_nat (String.length text)));
    case_bool_decide; try lia; (split; [done|]); [|lia].
  rewrite length_app. pose proof (length_take 500 text). simpl. lia.
Qed.

End export_driver.

Section export_driver_examples.
Import PyStr Exporter Scenario.

Lemma export_timeout_message_witness :
  success (export_with (Raised Timeout "timed out")) = false
  ∧ error_msg (export_with (Raised Timeout "timed out"))
    = "Timeout after 1800s"
  ∧ contains "1800" (error_msg (export_with (Raised Timeout "timed out")))
    = true.
Proof.
  apply (export_timeout_message "resnet50" "Samsung Galaxy S24" "out"
           "tflite" 1800 (env_with (Raised Timeout "timed out"))
           "timed out"); reflexivity.
Defined.

Lemma export_nonzero_exit_message_witness :
  success (export_with (Completed 2 "" " boom ")) = false
  ∧ error_msg (export_with (Completed 2 "" " boom ")) = "boom"
  ∧ (String.length (error_msg (export_with (Completed 2 "" " boom ")))
     ≤ 503)%nat.
Proof.
  apply (export_nonzero_exit_message "resnet50" "Samsung Galaxy S24" "out"
           "tflite" 1800 (env_with (Completed 2 "" " boom "))
           2 "" " boom "); [reflexivity|reflexivity|discriminate].
Defined.

(** C8 as stated fails: with 501 characters on stderr the message has 503
    characters, the first 500 of stderr and "...", and it is not stderr cut
    to 500 characters. *)
Lemma export_nonzero_exit_not_truncated :
  success (export_with (Completed 1 "" (repeat_char "x" 501))) = false
  ∧ error_msg (export_with (Completed 1 "" (repeat_char "x" 501)))
    = repeat_char "x" 500 +:+ "..."
  ∧ String.length
      (error_msg (export_with (Completed 1 "" (repeat_char "x" 501))))
    = 503%nat
  ∧ error_msg (export_with (Completed 1 "" (repeat_char "x" 501)))
    ≠ take 500 (repeat_char "x" 501).
Proof.
  split; [reflexivity|]. split; [by vm_compute|].
  split; [by vm_compute|].
  apply (bool_decide_unpack _). vm_compute. exact I.
Qed.

End export_driver_examples.

(** ** The batch run *)

Section batch.
Import PyStr Exporter.

Implicit Types (args : Args) (w : World) (r : ExportResult).
Implicit Types (results : list ExportResult).



Lemma main_export_step args w device_name :
  validate_qaihub_configured (validate_run w) = true →
  select_device args w = Some device_name →
  discover_available_models (models_scan w) ≠ [] →
  args_list_available args = false →
  main args w = (exit_code (export_results args w device_name),
                 export_results args w device_name).
Proof.
  intros Hv Hd Ha Hl. unfold main. rewrite Hv, Hd, Hl. simpl.
  destruct (discover_available_models (models_scan w)) eqn:E; [done|].
  unfold exit_code, export_results. rewrite E. by case_bool_decide.
Qed.

(** A run either stops before the export step with no result, or returns
    the results of the export step and the exit code computed from them. *)
Lemma main_cases args w :
  (main args w).2 = []
  ∧ ((main args w).1 = 1
     ∨ (main args w).1 = 0 ∧ args_list_available args = true
       ∧ validate_qaihub_configured (validate_run w) = true
       ∧ discover_available_models (models_scan w) ≠ [])
  ∨ ∃ device_name,
      validate_qaihub_configured (validate_run w) = true
      ∧ select_device args w = Some device_name
      ∧ discover_available_models (models_scan w) ≠ []
      ∧ args_list_available args = false
      ∧ main args w = (exit_code (export_results args w device_name),
                       export_results args w device_name).
Proof.
  destruct (validate_qaihub_configured (validate_run w)) eqn:Hv;
    [|left; unfold main; rewrite Hv; simpl; auto].
  destruct (select_device args w) as [device_name|] eqn:Hd;
    [|left; unfold main; rewrite Hv, Hd; simpl; auto].
  destruct (discover_available_models (models_scan w)) as [|m ms] eqn:Ha;
    [left; unfold main; rewrite Hv, Hd, Ha; simpl; auto|].
  destruct (args_list_available args) eqn:Hl.
  - left. unfold main. rewrite Hv, Hd, Ha, Hl. simpl. auto 6.
  - right. exists device_name. rewrite <- Ha.
    repeat (split; [done || by rewrite Ha|]).
    apply main_export_step; [done..|by rewrite Ha|done].
Qed.



Section one.
Variables (args : Args) (w : World) (device_name : string).
Variable available : list string.
Variables (i : nat) (requested : string).

Lemma export_one_unresolved :
  resolve_model_name requested available = None →
  export_one args w device_name available i requested
  = not_found requested device_name.
Proof. intros H. unfold export_one. by rewrite H. Qed.


Lemma export_one_success_member :
  success (export_one args w device_name available i requested) = true →
  resolved_name (export_one args w device_name available i requested)
  ∈ available.
Proof.
  unfold export_one.
  destruct (resolve_model_name requested available) as [resolved|] eqn:E;
    [|done].
  apply resolve_member in E.
  case_bool_decide; [done|].
  destruct (args_dry_run args); [done|]. intros _. simpl.
  by rewrite export_model_resolved_name.
Qed.

Lemma export_one_duration :
  clock_not_set_back (export_env w i) →
  (0 <= duration_seconds
          (export_one args w device_name available i requested))%Q.
Proof.
  intros Hclock. unfold export_one.
  destruct (resolve_model_name requested available) as [resolved|];
    [|done].
  case_bool_decide; [done|].
  destruct (args_dry_run args); [done|]. simpl.
  by apply export_model_duration.
Qed.
End one.


(** C6 (as the code has it).
    For the result at position [i] of a run: a success carries a resolved
    name that is in the discovered catalog; the duration is not negative as
    long as the wall clock is not set back during the export of that
    position; and the duration is exactly 0 in a dry run and for a name
    that is not found. *)
Theorem export_result_invariant args w (i : nat) r :
  (main args w).2 !! i = Some r →
  (success r = true →
   resolved_name r ∈ discover_available_models (models_scan w))
  ∧ (clock_not_set_back (export_env w i) → (0 <= duration_seconds r)%Q)
  ∧ (args_dry_run args = true → duration_seconds r = 0%Q)
  ∧ (∀ requested,
       requested_models (args_models args) !! i = Some requested →
       resolve_model_name requested
         (discover_available_models (models_scan w)) = None →
       duration_seconds r = 0%Q).
Proof.
  intros Hi.
  destruct (main_cases args w) as [[Hnil _]|(d & _ & _ & _ & _ & Hmain)].
  { by rewrite Hnil in Hi. }
  rewrite Hmain in Hi. simpl in Hi. unfold export_results in Hi.
  apply list_lookup_imap_Some in Hi as (requested & Hreq & ->).
  split; [apply export_one_success_member|].
  split; [apply export_one_duration|]. split.
  - intros Hdry. unfold export_one.
    destruct (resolve_model_name requested _); [|done].
    case_bool_decide; [done|]. by rewrite Hdry.
  - intros requested' Hreq' Hnone. rewrite Hreq in Hreq'.
    injection Hreq' as <-. by rewrite export_one_unresolved.
Qed.


End batch.

Section batch_examples.
Import PyStr Exporter Scenario.

(** The end-to-end example: one alias that resolves and one unknown name
    give a success, a failure "Model not found in qai_hub_models", and
    exit code 0. *)
Lemma main_one_of_two :
  (main args_two world_ok).1 = 0
  ∧ (success <$> (main args_two world_ok).2) = [true; false]
  ∧ (resolved_name <$> (main args_two world_ok).2)
    = ["stable_diffusion_v1_5"; "not_a_real_model"]
  ∧ (error_msg <$> (main args_two world_ok).2)
    = [""; "Model not found in qai_hub_models"].
Proof. vm_compute. auto. Qed.



Lemma export_result_invariant_witness :
  (∃ r, (main args_two world_ok).2 !! 0%nat = Some r
        ∧ resolved_name r ∈ ["stable_diffusion_v1_5"]
        ∧ (0 <= duration_seconds r)%Q)
  ∧ (∃ r, (main args_two world_ok).2 !! 1%nat = Some r
          ∧ duration_seconds r = 0%Q).
Proof.
  split.
  - eexists. split; [reflexivity|].
    edestruct (export_result_invariant args_two world_ok 0)
      as (Hname & Htime & _).
    { reflexivity. }
    split.
    + apply Hname. reflexivity.
    + apply Htime. split; vm_compute; discriminate.
  - eexists. split; [reflexivity|].
    edestruct (export_result_invariant args_two world_ok 1)
      as (_ & _ & _ & Hzero).
    { reflexivity. }
    apply (Hzero "not_a_real_model"); reflexivity.
Defined.

(** C6 as stated fails: the duration is the difference of two readings of
    the wall clock, and is negative when the clock is set back in
    between. *)
Lemma export_duration_negative :
  ∃ r, (main args_one world_clock_set_back).2 = [r]
       ∧ success r = true
       ∧ (duration_seconds r < 0)%Q.
Proof. eexists. split; [reflexivity|]. split; reflexivity. Qed.



End batch_examples.

(** ** The compile helper *)

Section compile_helper.
Import PyStr Compile.

Variables (hub : Hub) (os : Os).

(** The status, download and list commands wrap every vendor call in
    [try], so they always print an object. *)
Lemma do_status_prints job : ∃ j, do_status hub job = Printed j.
Proof.
  unfold do_status. destruct (get_job hub job) as [j|]; [|by eexists].
  destruct (get_status j 0) as [st|]; by eexists.
Qed.

Lemma do_status_exception job msg :
  (get_job hub job = Exc msg
   ∨ ∃ j, get_job hub job = Ret j ∧ get_status j 0 = Exc msg) →
  do_status hub job = Printed (status_error job msg)
  ∧ is_failure_json (status_error job msg).
Proof.
  intros H. split.
  - unfold do_status. destruct H as [->|(j & -> & ->)]; done.
  - split; [right|]; by unfold status_error; simplify_map_eq.
Qed.

Lemma error_json_failure msg : is_failure_json (error_json msg).
Proof. split; [left|]; by unfold error_json; simplify_map_eq. Qed.

Lemma do_download_prints job out : ∃ j, do_download hub os job out = Printed j.
Proof.
  unfold do_download. destruct (get_job hub job) as [j|]; [|by eexists].
  destruct (get_status j 0) as [st|]; [|by eexists].
  destruct (st_success st); simpl; [|by eexists].
  destruct (os_makedirs os out); [|by eexists].
  destruct (get_target_model j) as [[target|]|]; [|by eexists..].
  destruct (download target _); by eexists.
Qed.

Lemma do_list_jobs_prints limit : ∃ j, do_list_jobs hub limit = Printed j.
Proof.
  unfold do_list_jobs. destruct (get_job_summaries hub limit); by eexists.
Qed.

Lemma do_list_devices_prints name :
  ∃ j, do_list_devices hub name = Printed j.
Proof.
  unfold do_list_devices. destruct (get_devices hub name); by eexists.
Qed.

(** The compile command catches what the submission raises ... *)
Lemma do_compile_submit_exception model device options wait out fuel
    dev devs msg :
  get_devices hub device = Ret (dev :: devs) →
  (negb (startswith "m" model && (3 <? len model))
   && negb (path_exists os model) = false) →
  submit_compile_job hub model dev
    ("edgemesh-" +:+ of_int (time_int os)) options = Exc msg →
  do_compile hub os model device options wait out fuel
  = Printed (error_json msg).
Proof. intros Hd Hm Hs. unfold do_compile. by rewrite Hd, Hm, Hs. Qed.

(** ... but not what the device lookup raises, ... *)
Lemma do_compile_devices_exception model device options wait out fuel msg :
  get_devices hub device = Exc msg →
  do_compile hub os model device options wait out fuel = Crashed msg.
Proof. intros Hd. unfold do_compile. by rewrite Hd. Qed.

(** ... nor what a status call of the poll loop raises. *)
Lemma poll_exception job result fuel n msg :
  get_status job n = Exc msg → poll job result (S fuel) n = Exc msg.
Proof. intros H. simpl. by rewrite H. Qed.

End compile_helper.

Section compile_examples.
Import PyStr Compile Scenario.

(** C9, the code where a vendor call raises.
    With [--wait], an exception of the first status call leaves
    [do_compile] unhandled and nothing is printed; so does an exception of
    the device lookup.  The status command, on the same job, and the
    list-devices command, on the same lookup, print an object with an
    error field. *)
Theorem do_compile_exception_propagates :
  do_compile hub_status_fails an_os "model.onnx"
             "Samsung Galaxy S24 (Family)" "" true "" 1
    = Crashed "ConnectionError: status"
  ∧ do_compile hub_devices_fail an_os "model.onnx"
               "Samsung Galaxy S24 (Family)" "" false "" 0
    = Crashed "ConnectionError: devices"
  ∧ do_status hub_status_fails "j123"
    = Printed (status_error "j123" "ConnectionError: status")
  ∧ do_list_devices hub_devices_fail ""
    = Printed {[ "count" := JInt 0; "devices" := JList [];
                 "error" := JStr "ConnectionError: devices" ]}.
Proof. repeat split. Qed.

End compile_examples.

(** ** More facts about the string operations *)

Section strip_facts.
Import PyStr.

Lemma map_chars_ext (f g : ascii → ascii) (s : string) :
  (∀ c, f c = g c) → map_chars f s = map_chars g s.
Proof. intros H. induction s as [|c s IH]; simpl; [done|]. by rewrite H, IH. Qed.

Lemma map_chars_compose (f g : ascii → ascii) (s : string) :
  map_chars f (map_chars g s) = map_chars (λ c, f (g c)) s.
Proof. induction s as [|c s IH]; simpl; [done|]. by rewrite IH. Qed.

(** A stripped string is empty or starts with a character that is not
    white space. *)
Lemma lstrip_head (s : string) :
  lstrip s = "" ∨ ∃ c t, lstrip s = String c t ∧ isspace c = false.
Proof.
  induction s as [|c s IH]; simpl; [by left|].
  destruct (isspace c) eqn:E; [done|]. right. by exists c, s.
Qed.

Lemma rstrip_head (c : ascii) (t : string) :
  isspace c = false → ∃ t', rstrip (String c t) = String c t'.
Proof.
  intros E. simpl. destruct (rstrip t) as [|d t'].
  - rewrite E. by exists "".
  - by exists (String d t').
Qed.

Lemma strip_head (s : string) :
  strip s = "" ∨ ∃ c t, strip s = String c t ∧ isspace c = false.
Proof.
  unfold strip. destruct (lstrip_head s) as [->|(c & t & -> & E)]; [by left|].
  right. destruct (rstrip_head c t E) as [t' ->]. by exists c, t'.
Qed.

Lemma strip_nonspace_head (c : ascii) (t : string) :
  isspace c = false → ∃ t', strip (String c t) = String c t'.
Proof. intros E. unfold strip. simpl. rewrite E. by apply rstrip_head. Qed.

Lemma rstrip_idemp (s : string) : rstrip (rstrip s) = rstrip s.
Proof.
  induction s as [|c s IH]; [done|].
  cbn [rstrip]. destruct (rstrip s) as [|d t'] eqn:E.
  - destruct (isspace c) eqn:Ec; [done|]. simpl. by rewrite Ec.
  - cbn [rstrip]. cbn [rstrip] in IH. by rewrite IH.
Qed.

Lemma strip_idemp (s : string) : strip (strip s) = strip s.
Proof.
  destruct (strip_head s) as [->|(c & t & E & Ec)]; [done|].
  rewrite E. unfold strip at 1. simpl. rewrite Ec.
  rewrite <- E. unfold strip. apply rstrip_idemp.
Qed.

(** The words that [split] returns are not empty, and a string that
    starts with a character that is not white space has a first word. *)
Lemma split_ws_nonempty (s : string) : Forall (λ p, p ≠ "") (split_ws s).
Proof.
  induction s as [|c s IH]; simpl; [constructor|].
  destruct (isspace c); [done|].
  destruct s as [|d s']; [by constructor|].
  destruct (isspace d) eqn:Ed.
  - constructor; [done|]. revert IH. simpl. by rewrite Ed.
  - destruct (split_ws (String d s')) as [|h r]; [by constructor|].
    apply Forall_cons in IH as [_ IH]. by constructor.
Qed.

Lemma split_ws_head (c : ascii) (t : string) :
  isspace c = false → split_ws (String c t) ≠ [].
Proof.
  intros E. simpl. rewrite E. destruct t as [|d t']; [done|].
  destruct (isspace d); [done|]. by destruct (split_ws (String d t')).
Qed.

End strip_facts.

(** ** The device selector: what it does on every listing *)

Section selector_behaviour.
Import PyStr Exporter.

Implicit Types (d : string * string) (devices : list (string * string)).

Lemma find_priority2_first devices1 d devices2 :
  Forall (λ d', is_priority2 d' = false) devices1 →
  is_priority2 d = true →
  List.find is_priority2 (devices1 ++ d :: devices2) = Some d.
Proof.
  intros Hbefore Hd. induction Hbefore as [|d' l Hd' _ IH]; simpl.
  - by rewrite Hd.
  - by rewrite Hd'.
Qed.

Lemma find_priority2_none devices :
  Forall (λ d', is_priority2 d' = false) devices →
  List.find is_priority2 devices = None.
Proof.
  intros H. induction H as [|d' l Hd' _ IH]; simpl; [done|]. by rewrite Hd'.
Qed.

Lemma select_from_effective devices :
  select_from devices =
  match devices with
  | [] => ("", "No devices found")
  | first :: _ =>
      match List.find is_priority2 devices with
      | Some d => (d.1, reason2)
      | None => (first.1, reason4)
      end
  end.
Proof.
  unfold select_from. destruct devices as [|first rest]; [done|].
  by rewrite find_priority1_None, find_priority3_None.
Qed.

Lemma select_from_member devices :
  devices ≠ [] → ∃ d, d ∈ devices ∧ (select_from devices).1 = d.1.
Proof.
  intros Hne. rewrite select_from_effective.
  destruct devices as [|first rest]; [done|].
  destruct (List.find is_priority2 (first :: rest)) as [d|] eqn:E.
  - apply find_some in E as [Hin%list_elem_of_In _]. by exists d.
  - exists first. split; [by left|done].
Qed.

(** X1.
    Whatever the outcome of the listing command, the reason returned is
    neither the one of priority 1 nor the one of priority 3: the two
    branches that ask for Windows are never taken. *)
Theorem auto_select_never_windows_reason (run : run_outcome) :
  (auto_select_device run).2 ≠ reason1
  ∧ (auto_select_device run).2 ≠ reason3.
Proof.
  destruct run as [returncode stdout stderr|kind msg]; simpl; [|done].
  case_bool_decide; [done|]. rewrite select_from_effective.
  destruct (parse_devices stdout) as [|first rest]; [done|].
  by destruct (List.find is_priority2 _).
Qed.

(** X2.
    When the listing command exits with 0 and the first device line that
    contains "Snapdragon X Elite" is [d], the selector returns the name of
    [d] with the reason "Snapdragon X Elite", whatever the other lines say
    about the operating system. *)
Theorem auto_select_first_x_elite (stdout stderr : string) devices1 d devices2 :
  parse_devices stdout = devices1 ++ d :: devices2 →
  Forall (λ d', contains "Snapdragon X Elite" d'.2 = false) devices1 →
  contains "Snapdragon X Elite" d.2 = true →
  auto_select_device (Completed 0 stdout stderr) = (d.1, reason2).
Proof.
  intros Hparse Hbefore Hd. simpl. rewrite select_from_effective, Hparse.
  rewrite find_priority2_first by done.
  by destruct devices1.
Qed.

(** X3.
    When the listing command exits with 0 and no device line contains
    "Snapdragon X Elite", the selector returns the first device line's
    name with the last-resort reason, also when some line names a
    Snapdragon chipset and Windows. *)
Theorem auto_select_first_device (stdout stderr : string) first rest :
  parse_devices stdout = first :: rest →
  Forall (λ d', contains "Snapdragon X Elite" d'.2 = false) (first :: rest) →
  auto_select_device (Completed 0 stdout stderr) = (first.1, reason4).
Proof.
  intros Hparse Hnone. simpl. rewrite select_from_effective, Hparse.
  by rewrite find_priority2_none.
Qed.

Lemma parse_devices_nil (stdout : string) :
  (∀ raw, raw ∈ split_char newline (strip stdout) → skipped_line raw = true) →
  parse_devices stdout = [].
Proof.
  unfold parse_devices. induction (split_char newline (strip stdout))
    as [|raw lines IH]; intros Hall; [done|].
  cbn [omap list_omap].
  assert (parse_line raw = None) as ->.
  { unfold parse_line. specialize (Hall raw). unfold skipped_line in Hall.
    rewrite Hall; [done|by left]. }
  apply IH. intros raw' Hin. apply Hall. by right.
Qed.

(** X4.
    A listing in which every line is blank, a separator (starts with "-")
    or a header (starts with "Device") gives no device name and the reason
    "No devices found"; the empty output is such a listing. *)
Theorem auto_select_no_device_lines (stdout stderr : string) :
  (∀ raw, raw ∈ split_char newline (strip stdout) → skipped_line raw = true) →
  auto_select_device (Completed 0 stdout stderr) = ("", "No devices found").
Proof. intros H. simpl. by rewrite parse_devices_nil. Qed.

Lemma match_brand_head (b : ascii) (brand s m : string) :
  match_brand (String b brand) s = Some m → ∃ t, m = String b t.
Proof.
  unfold match_brand. destruct (startswith _ s); [|done].
  destruct (take_until _ _) as [|c body]; [done|].
  intros [= <-]. by eexists.
Qed.

Lemma match_here_head (s m : string) :
  match_here s = Some m → ∃ c t, m = String c t ∧ isspace c = false.
Proof.
  unfold match_here.
  destruct (match_brand "Snapdragon" s) as [m1|] eqn:E1.
  { intros [= <-]. apply match_brand_head in E1 as [t ->]. by eexists _, _. }
  destruct (match_brand "Samsung" s) as [m2|] eqn:E2.
  { intros [= <-]. apply match_brand_head in E2 as [t ->]. by eexists _, _. }
  intros [t ->]%match_brand_head. by eexists _, _.
Qed.

Lemma re_search_head (s m : string) :
  re_search s = Some m → ∃ c t, m = String c t ∧ isspace c = false.
Proof.
  induction s as [|c s IH]; cbn [re_search];
    destruct (match_here _) as [m'|] eqn:E; try done.
  all: intros [= <-]; by apply match_here_head in E.
Qed.

Lemma parse_line_Some (raw : string) :
  skipped_line raw = false →
  ∃ name, parse_line raw = Some (name, strip raw) ∧ name ≠ "".
Proof.
  intros Hskip. unfold parse_line. unfold skipped_line in Hskip.
  rewrite Hskip.
  apply orb_false_iff in Hskip as [Hskip _].
  apply orb_false_iff in Hskip as [Hne%bool_decide_eq_false _].
  destruct (strip_head raw) as [?|(c & t & E & Ec)]; [done|].
  pose proof (split_ws_nonempty (strip raw)) as Hwords.
  pose proof (split_ws_head c t Ec) as Hfirst. rewrite <- E in Hfirst.
  destruct (split_ws (strip raw)) as [|part0 parts]; [done|].
  apply Forall_cons in Hwords as [Hpart0 _].
  eexists. split; [reflexivity|].
  destruct (_ || _); [|done].
  destruct (re_search (strip raw)) as [m|] eqn:Em; [|done].
  apply re_search_head in Em as (c' & t' & -> & Ec').
  by destruct (strip_nonspace_head c' t' Ec') as [t'' ->].
Qed.

(** X5.
    When the listing command exits with 0 and some line is a device line
    (not blank, no separator, no header), the selector returns the name
    parsed from one of the device lines, and that name is not empty. *)
Theorem auto_select_device_line (stdout stderr raw : string) :
  raw ∈ split_char newline (strip stdout) →
  skipped_line raw = false →
  ∃ d, d ∈ parse_devices stdout
       ∧ (auto_select_device (Completed 0 stdout stderr)).1 = d.1
       ∧ d.1 ≠ "".
Proof.
  intros Hin Hskip. simpl.
  destruct (parse_line_Some raw Hskip) as (name & Hparse & _).
  assert (parse_devices stdout ≠ []) as Hne.
  { intros Hnil.
    assert ((name, strip raw) ∈ parse_devices stdout) as Hd.
    { apply list_elem_of_omap. by exists raw. }
    rewrite Hnil in Hd. by apply elem_of_nil in Hd. }
  destruct (select_from_member _ Hne) as (d & Hd & Hsel).
  exists d. split; [done|]. split; [done|].
  apply list_elem_of_omap in Hd as (raw' & _ & Hraw').
  destruct (skipped_line raw') eqn:Hskip'.
  - unfold parse_line in Hraw'. unfold skipped_line in Hskip'.
    by rewrite Hskip' in Hraw'.
  - destruct (parse_line_Some raw' Hskip') as (name' & Hparse' & Hname').
    rewrite Hparse' in Hraw'. by simplify_eq.
Qed.

End selector_behaviour.

(** ** The resolver: soundness, spelling and order *)

Section resolver_behaviour.
Import PyStr Exporter.

Implicit Types (requested normalized resolved model : string).
Implicit Types (available : list string).

(** X6.
    A name that the resolver returns is a catalog member, and it is the
    normalized request, the alias of the request in one of its two
    spellings, or an entry in a substring relation with the normalized
    request. *)
Theorem resolve_sound requested available resolved :
  resolve_model_name requested available = Some resolved →
  resolved ∈ available
  ∧ (resolved = normalize requested
     ∨ MODEL_ALIASES !! alias_key requested = Some resolved
     ∨ MODEL_ALIASES !! normalize requested = Some resolved
     ∨ contains (normalize requested) resolved = true
     ∨ contains resolved (normalize requested) = true).
Proof.
  unfold resolve_model_name. case_bool_decide as Hn.
  { intros [= <-]. auto. }
  destruct (alias_lookup (alias_key requested) available) eqn:E1.
  { intros [= <-]. apply alias_lookup_Some in E1 as [? ?]. auto. }
  destruct (alias_lookup (normalize requested) available) eqn:E2.
  { intros [= <-]. apply alias_lookup_Some in E2 as [? ?]. auto. }
  intros [? [?|?]]%fuzzy_match_Some; auto 6.
Qed.

(** X7.
    When the resolver reports not-found, the normalized request is not in
    the catalog, neither alias lookup leads to a catalog member, and no
    catalog entry is in a substring relation with the normalized request. *)
Theorem resolve_None_inv requested available :
  resolve_model_name requested available = None →
  (normalize requested ∉ available)
  ∧ (∀ resolved, MODEL_ALIASES !! alias_key requested = Some resolved →
                 resolved ∉ available)
  ∧ (∀ resolved, MODEL_ALIASES !! normalize requested = Some resolved →
                 resolved ∉ available)
  ∧ (∀ model, model ∈ available →
              contains (normalize requested) model = false
              ∧ contains model (normalize requested) = false).
Proof.
  unfold resolve_model_name. case_bool_decide as Hn; [done|].
  destruct (alias_lookup (alias_key requested) available) eqn:E1; [done|].
  destruct (alias_lookup (normalize requested) available) eqn:E2; [done|].
  intros E3. split; [done|].
  split; [by apply alias_lookup_None|].
  split; [by apply alias_lookup_None|]. by apply fuzzy_match_None.
Qed.

(** The normalized form and the alias key do not see the case of the
    request, nor which of hyphen and underscore it uses. *)
Lemma normalize_respelled requested :
  normalize (lower requested) = normalize requested
  ∧ normalize (hyphenated requested) = normalize requested
  ∧ normalize (underscored requested) = normalize requested.
Proof.
  repeat split;
    unfold normalize, alias_key, hyphenated, underscored, lower, replace_char;
    rewrite !map_chars_compose; apply map_chars_ext;
    by intros [[] [] [] [] [] [] [] []].
Qed.

Lemma alias_key_respelled requested :
  alias_key (lower requested) = alias_key requested
  ∧ alias_key (hyphenated requested) = alias_key requested
  ∧ alias_key (underscored requested) = alias_key requested.
Proof.
  repeat split;
    unfold normalize, alias_key, hyphenated, underscored, lower, replace_char;
    rewrite !map_chars_compose; apply map_chars_ext;
    by intros [[] [] [] [] [] [] [] []].
Qed.

Lemma resolve_same_keys requested requested' available :
  normalize requested' = normalize requested →
  alias_key requested' = alias_key requested →
  resolve_model_name requested' available
  = resolve_model_name requested available.
Proof. intros Hn Ha. unfold resolve_model_name. by rewrite Hn, Ha. Qed.

(** X8.
    The resolver gives the same answer for a request, for the request in
    lower case, and for the request with underscores written as hyphens or
    hyphens written as underscores. *)
Theorem resolve_respelled requested available :
  resolve_model_name (lower requested) available
  = resolve_model_name requested available
  ∧ resolve_model_name (hyphenated requested) available
    = resolve_model_name requested available
  ∧ resolve_model_name (underscored requested) available
    = resolve_model_name requested available.
Proof.
  destruct (normalize_respelled requested) as (Hn1 & Hn2 & Hn3).
  destruct (alias_key_respelled requested) as (Ha1 & Ha2 & Ha3).
  repeat split; by apply resolve_same_keys.
Qed.

Lemma fuzzy_match_first normalized available1 model available2 :
  Forall (λ m, contains normalized m = false
               ∧ contains m normalized = false) available1 →
  contains normalized model = true ∨ contains model normalized = true →
  fuzzy_match normalized (available1 ++ model :: available2) = Some model.
Proof.
  intros Hbefore Hmodel.
  induction Hbefore as [|m l [H1 H2] _ IH]; simpl.
  - apply orb_true_iff in Hmodel. by rewrite Hmodel.
  - by rewrite H1, H2.
Qed.

(** X9.
    When neither the exact match nor an alias decides, the resolver
    returns the first catalog entry, in the order of the list, that is in
    a substring relation with the normalized request; later entries that
    would match as well are not considered. *)
Theorem resolve_fuzzy_first requested available1 model available2 :
  normalize requested ∉ available1 ++ model :: available2 →
  (∀ resolved, MODEL_ALIASES !! alias_key requested = Some resolved →
               resolved ∉ available1 ++ model :: available2) →
  (∀ resolved, MODEL_ALIASES !! normalize requested = Some resolved →
               resolved ∉ available1 ++ model :: available2) →
  Forall (λ m, contains (normalize requested) m = false
               ∧ contains m (normalize requested) = false) available1 →
  contains (normalize requested) model = true
  ∨ contains model (normalize requested) = true →
  resolve_model_name requested (available1 ++ model :: available2)
  = Some model.
Proof.
  intros Hn Ha1 Ha2 Hbefore Hmodel. unfold resolve_model_name.
  rewrite bool_decide_eq_false_2 by done.
  apply alias_lookup_None in Ha1 as ->. apply alias_lookup_None in Ha2 as ->.
  by apply fuzzy_match_first.
Qed.

(** X10.
    Two edges: on the empty catalog every request is not found; and the
    empty request resolves to the empty name when the catalog has it, and
    otherwise to the first catalog entry, of which it is a substring. *)
Theorem resolve_edges :
  (∀ requested, resolve_model_name requested [] = None)
  ∧ (∀ available,
       resolve_model_name "" available
       = if bool_decide ("" ∈ available) then Some "" else head available).
Proof.
  split.
  - intros requested. unfold resolve_model_name, alias_lookup.
    rewrite bool_decide_eq_false_2 by apply not_elem_of_nil.
    destruct (MODEL_ALIASES !! alias_key requested);
      destruct (MODEL_ALIASES !! normalize requested);
      rewrite ?bool_decide_eq_false_2 by apply not_elem_of_nil; done.
  - intros available. unfold resolve_model_name.
    change (normalize "") with "". change (alias_key "") with "".
    case_bool_decide; [done|].
    assert (alias_lookup "" available = None) as ->.
    { apply alias_lookup_None. intros resolved Hk. vm_compute in Hk. done. }
    destruct available as [|m rest]; [done|].
    cbn [fuzzy_match head]. by rewrite (contains_prefix "" m (prefix_nil m)).
Qed.

End resolver_behaviour.

(** ** The catalog and the list of requested names *)

Section catalog_and_requests.
Import PyStr Exporter.

(** X11.
    The discovered catalog is sorted, and a name is in it exactly when
    the scan succeeded and reported a package of that name that has an
    export module or a package initialiser; a failed scan gives the empty
    catalog. *)
Theorem discover_sorted_packages (scan : py (list module_info)) :
  Sorted String.le (discover_available_models scan)
  ∧ (∀ m, m ∈ discover_available_models scan ↔
          ∃ infos info,
            scan = Ret infos ∧ info ∈ infos ∧ modname info = m
            ∧ ispkg info = true
            ∧ (has_export_py info = true ∨ has_init_py info = true)).
Proof.
  destruct scan as [infos|msg]; simpl.
  - split; [apply Sorted_merge_sort, _|].
    intros m. rewrite merge_sort_Permutation, list_elem_of_fmap. split.
    + intros (info & -> & [[? ?] ?]%list_elem_of_filter).
      by exists infos, info.
    + intros (infos' & info & [= <-] & ? & <- & ? & ?).
      exists info. split; [done|]. by apply list_elem_of_filter.
  - split; [constructor|]. intros m. split.
    + by intros ?%elem_of_nil.
    + by intros (? & ? & ? & _).
Qed.

(** X12.
    Every name that the batch run hands to the resolver is non-empty and
    has no white space at either end. *)
Theorem requested_models_stripped (models m : string) :
  m ∈ requested_models models → m ≠ "" ∧ strip m = m.
Proof.
  unfold requested_models.
  intros (x & -> & [Hne _]%list_elem_of_filter)%list_elem_of_fmap.
  split; [done|apply strip_idemp].
Qed.

Lemma contains_char_cons (sep c : ascii) (t : string) :
  contains (String sep "") (String c t) = false →
  Ascii.eqb c sep = false ∧ contains (String sep "") t = false.
Proof.
  cbn [contains String.prefix]. intros [H1 H2]%orb_false_iff. split; [|done].
  destruct (ascii_dec sep c) as [->|Hne].
  - by destruct t.
  - by apply Ascii.eqb_neq.
Qed.

Lemma split_char_no_sep (sep : ascii) (n : string) :
  contains (String sep "") n = false → split_char sep n = [n].
Proof.
  induction n as [|c n IH]; [done|].
  intros [Hc Hn]%contains_char_cons. simpl. by rewrite Hc, IH.
Qed.

Lemma split_char_app (sep : ascii) (n rest : string) :
  contains (String sep "") n = false →
  split_char sep (n +:+ String sep "" +:+ rest) = n :: split_char sep rest.
Proof.
  induction n as [|c n IH].
  - intros _. rewrite app_nil, app_cons, app_nil. simpl.
    by rewrite Ascii.eqb_refl.
  - intros [Hc Hn]%contains_char_cons. rewrite app_cons. simpl.
    by rewrite Hc, IH.
Qed.

Lemma split_join (sep : ascii) (names : list string) :
  names ≠ [] →
  Forall (λ n, contains (String sep "") n = false) names →
  split_char sep (join (String sep "") names) = names.
Proof.
  intros Hne Hall. induction Hall as [|n rest Hn Hrest IH]; [done|].
  destruct rest as [|n' rest]; [by apply split_char_no_sep|].
  cbn [join]. rewrite split_char_app by done. f_equal. by apply IH.
Qed.

(** X13.
    Round trip: a list of names that are non-empty, stripped and free of
    commas, joined with commas as [parse_args] does for its default, is
    read back as the same list by the batch run. *)
Theorem requested_models_join (names : list string) :
  Forall (λ n, n ≠ "" ∧ strip n = n ∧ contains "," n = false) names →
  requested_models (join "," names) = names.
Proof.
  intros Hall. unfold requested_models.
  destruct names as [|n rest]; [done|].
  rewrite split_join; [|done|by eapply Forall_impl; [done|]; intros ? (_&_&?)].
  assert (Forall (λ n, strip n ≠ "" ∧ strip n = n) (n :: rest)) as Hall'.
  { eapply Forall_impl; [done|]. intros x (? & Hs & _). by rewrite Hs. }
  clear Hall. induction Hall' as [|x l [Hx1 Hx2] _ IH]; [done|].
  rewrite filter_cons, decide_True by done.
  rewrite fmap_cons. by rewrite Hx2, IH.
Qed.

End catalog_and_requests.

(** ** The export driver and the batch run: shape of the results *)

Section result_shape.
Import PyStr Exporter.

Lemma probe_fallbacks_shape model device_name base e duration dirs :
  let r := probe_fallbacks model device_name base e duration dirs in
  requested_name r = model ∧ resolved_name r = model ∧ device r = device_name
  ∧ output_path r = (if success r then output_dir model base else "").
Proof.
  induction dirs as [|pdir rest IH]; simpl; [done|].
  destruct (dir_has_files e pdir) as [[]|]; [|done..].
  by destruct (copytree e pdir _).
Qed.

(** X14.
    Whatever happens during an export, its result names the model as
    requested and as resolved, carries the device it was given, and has
    the output directory as its path when it is a success and the empty
    path when it is a failure. *)
Theorem export_model_shape (model device_name base runtime : string)
    (timeout : Z) (e : ExportEnv) :
  let r := export_model model device_name base runtime timeout e in
  requested_name r = model ∧ resolved_name r = model ∧ device r = device_name
  ∧ output_path r = (if success r then output_dir model base else "").
Proof.
  unfold export_model.
  destruct (makedirs e _); [|done].
  destruct (export_run e _ _) as [returncode stdout stderr|[] msg];
    [|done..].
  case_bool_decide; [|done].
  destruct (dir_has_files e _) as [[]|]; [done| |done].
  apply probe_fallbacks_shape.
Qed.

Lemma export_model_device_path (model device_name base runtime : string)
    (timeout : Z) (e : ExportEnv) :
  let r := export_model model device_name base runtime timeout e in
  device r = device_name
  ∧ output_path r = (if success r then output_dir model base else "").
Proof.
  unfold export_model.
  destruct (makedirs e _); [|done].
  destruct (export_run e _ _) as [returncode stdout stderr|[] msg];
    [|done..].
  case_bool_decide; [|done].
  destruct (dir_has_files e _) as [[]|]; [done| |done].
  by destruct (probe_fallbacks_shape model device_name base e
                 (time_after_run e - time_start e)%Q
                 (possible_dirs model e)) as (_ & _ & ? & ?).
Qed.

Lemma probe_fallbacks_no_files model device_name base e duration dirs :
  Forall (λ dir, dir_has_files e dir = Ret false) dirs →
  probe_fallbacks model device_name base e duration dirs
  = succeeded model device_name base duration
      "Export succeeded but output location unclear".
Proof.
  intros Hdirs. induction Hdirs as [|dir rest Hdir _ IH]; simpl; [done|].
  by rewrite Hdir.
Qed.

(** X15.
    An export subprocess that exits with 0 and leaves no file, neither in
    the output directory nor in any of the three fallback directories, is
    still reported as a success, with the output directory as path and a
    remark in [error_msg]; what other directories hold does not matter. *)
Theorem export_zero_exit_without_files (model device_name base runtime : string)
    (timeout : Z) (e : ExportEnv) (stdout stderr : string) :
  makedirs e (output_dir model base) = Ret () →
  export_run e (export_command model device_name base runtime e) timeout
    = Completed 0 stdout stderr →
  dir_has_files e (output_dir model base) = Ret false →
  Forall (λ dir, dir_has_files e dir = Ret false) (possible_dirs model e) →
  let r := export_model model device_name base runtime timeout e in
  success r = true
  ∧ output_path r = output_dir model base
  ∧ error_msg r = "Export succeeded but output location unclear".
Proof.
  intros Hmk Hrun Hout Hdirs. unfold export_model. rewrite Hmk, Hrun, Hout.
  cbv zeta. by rewrite probe_fallbacks_no_files.
Qed.

Lemma path_join_nonempty (a b : string) : b ≠ "" → path_join a b ≠ "".
Proof.
  intros Hb. unfold path_join. destruct (startswith "/" b); [done|].
  destruct (bool_decide (a = "") || _) eqn:E.
  - destruct a as [|c a]; [by rewrite app_nil|by rewrite app_cons].
  - destruct a as [|c a]; [done|by rewrite app_cons].
Qed.

Lemma export_one_shape args w device_name available i requested :
  let r := export_one args w device_name available i requested in
  requested_name r = requested ∧ device r = device_name
  ∧ (success r = true ↔ output_path r ≠ "").
Proof.
  unfold export_one.
  destruct (resolve_model_name requested available) as [resolved|];
    [|by split; [|split]].
  case_bool_decide as Hne; [by split; [|split]|].
  destruct (args_dry_run args).
  - simpl. split; [done|]. split; [done|]. split; [|done]. intros _.
    destruct (args_output_base args); [by rewrite app_nil|by rewrite app_cons].
  - pose proof (export_model_device_path resolved device_name
                  (args_output_base args) (args_target_runtime args)
                  (args_timeout args) (export_env w i)) as (Hd & Hp).
    simpl. split; [done|]. split; [done|]. rewrite Hp.
    destruct (success _); [|done]. split; [|done]. intros _.
    by apply path_join_nonempty.
Qed.

Lemma main_results_device args w r :
  r ∈ (main args w).2 →
  ∃ device_name, select_device args w = Some device_name
                 ∧ device r = device_name.
Proof.
  destruct (main_cases args w) as [[-> _]|(d & _ & Hd & _ & _ & ->)].
  { by intros ?%elem_of_nil. }
  simpl. intros (i & requested & -> & _)%elem_of_lookup_imap_1.
  exists d. split; [done|]. apply export_one_shape.
Qed.

(** X16.
    A run that gets past the setup returns one result per requested name,
    in the order of the request and under the requested spelling; every
    result carries the selected device, and a result has an output path
    exactly when it is a success. *)
Theorem main_results_shape (args : Args) (w : World) :
  (main args w).2 = []
  ∨ ∃ device_name,
      select_device args w = Some device_name
      ∧ (requested_name <$> (main args w).2)
        = requested_models (args_models args)
      ∧ Forall (λ r, device r = device_name
                     ∧ (success r = true ↔ output_path r ≠ ""))
               (main args w).2.
Proof.
  destruct (main_cases args w) as [[Hnil _]|(d & _ & Hd & _ & _ & Hmain)];
    [by left|].
  right. exists d. split; [done|]. rewrite Hmain. simpl.
  unfold export_results. split.
  - rewrite fmap_imap.
    rewrite (imap_ext _ (const id)); [by rewrite imap_const, list_fmap_id|].
    intros i requested _. simpl. apply export_one_shape.
  - apply Forall_forall. intros r (i & requested & -> & _)%elem_of_lookup_imap_1.
    pose proof (export_one_shape args w d
                  (discover_available_models (models_scan w)) i requested)
      as (_ & ? & ?).
    done.
Qed.

(** X17.
    Outside listing mode, a model list without any name (empty, or only
    commas and white space) makes the run exit with 1 and no result. *)
Theorem main_no_requested_model (args : Args) (w : World) :
  args_list_available args = false →
  requested_models (args_models args) = [] →
  main args w = (1, []).
Proof.
  intros Hl Hnone.
  destruct (main_cases args w)
    as [[Hnil [H1|(_ & Hl' & _)]]|(d & _ & _ & _ & _ & Hmain)];
    [|congruence|].
  - destruct (main args w) as [code results]. by simplify_eq/=.
  - rewrite Hmain. unfold export_results. by rewrite Hnone.
Qed.

(** X18.
    With a device given on the command line the device listing used for
    the automatic selection is not consulted: the run is the same whatever
    that listing is, and every result carries the given device. *)
Theorem main_explicit_device (args : Args) (w w' : World) :
  args_device args ≠ "" →
  validate_run w' = validate_run w →
  models_scan w' = models_scan w →
  export_env w' = export_env w →
  main args w' = main args w
  ∧ Forall (λ r, device r = args_device args) (main args w).2.
Proof.
  intros Hdev Hv Hs He.
  assert (∀ w0, select_device args w0 = Some (args_device args)) as Hsel.
  { intros w0. unfold select_device. by rewrite bool_decide_eq_true_2. }
  split.
  - unfold main. rewrite Hv, Hs, !Hsel.
    destruct (negb _); [done|].
    destruct (discover_available_models (models_scan w)) as [|m ms]; [done|].
    destruct (args_list_available args); [done|].
    assert (imap (export_one args w' (args_device args) (m :: ms))
                 (requested_models (args_models args))
            = imap (export_one args w (args_device args) (m :: ms))
                   (requested_models (args_models args))) as ->; [|done].
    apply imap_ext. intros i requested _. unfold export_one. by rewrite He.
  - apply Forall_forall. intros r (d & Hd & <-)%main_results_device.
    rewrite Hsel in Hd. by simplify_eq.
Qed.

End result_shape.

(** ** The compile helper: exits, crashes and printed objects *)

Section compile_behaviour.
Import PyStr Compile.

Variables (hub : Hub) (os : Os).

Implicit Types (out model device options msg : string).
Implicit Types (j result : gmap string json) (job : Job).

(** X19.
    With the SDK imported, the status, download, list-jobs and
    list-devices commands print one object and the process exits with 0,
    whatever the SDK calls raise. *)
Theorem other_commands_exit_zero (c : command) (fuel : nat) :
  is_compile c = false →
  ∃ j, main (Some hub) os (Some c) fuel = Exited 0 (Some j).
Proof.
  intros Hc. unfold main.
  destruct c as [model device options wait out|job|job out|limit|name];
    [done|simpl..].
  - destruct (do_status_prints hub job) as [j ->]. by eexists.
  - destruct (do_download_prints hub os job out) as [j ->]. by eexists.
  - destruct (do_list_jobs_prints hub limit) as [j ->]. by eexists.
  - destruct (do_list_devices_prints hub name) as [j ->]. by eexists.
Qed.

(** X20.
    When the process ends through [sys.exit] or at the end of [main], and
    not in an unhandled exception, its exit code is 1 only when the SDK
    cannot be imported or no subcommand is given; whenever a command prints
    its object, a failure object included, the exit code is 0. *)
Theorem main_exit_code_meaning (h : option Hub) (c : option command)
    (fuel : nat) (code : Z) (printed : option (gmap string json)) :
  main h os c fuel = Exited code printed →
  (code = 1 ∧ (h = None ∨ c = None))
  ∨ (code = 0
     ∧ ∃ h' c' j, h = Some h' ∧ c = Some c' ∧ printed = Some j
                  ∧ run_command h' os c' fuel = Printed j).
Proof.
  unfold main. destruct h as [h'|]; [|intros [= <- <-]; auto].
  destruct c as [c'|]; [|intros [= <- <-]; auto].
  destruct (run_command h' os c' fuel) as [j| |] eqn:E; [|done..].
  intros [= <- <-]. right. split; [done|]. by exists h', c', j.
Qed.



(** X22.
    A model argument that starts with "m" and has more than three
    characters, such as "model.onnx", is taken as a model id of the hub: the
    command never asks whether a file of that name exists. *)
Theorem do_compile_model_id_unchecked (os' : Os) model device options
    (wait : bool) out (fuel : nat) :
  startswith "m" model = true →
  3 < len model →
  os_makedirs os' = os_makedirs os →
  time_int os' = time_int os →
  do_compile hub os' model device options wait out fuel
  = do_compile hub os model device options wait out fuel.
Proof.
  intros Hm Hlen Hmk Ht. unfold do_compile, fetch_artifact.
  apply Z.ltb_lt in Hlen. by rewrite Hm, Hlen, Hmk, Ht.
Qed.

Lemma poll_running job result fuel n :
  (∀ i, (n ≤ i < n + fuel)%nat →
        ∃ st, get_status job i = Ret st ∧ st_success st = false
              ∧ st_running st = Some true) →
  poll job result fuel n = Ret None.
Proof.
  revert n. induction fuel as [|fuel IH]; intros n Hrun; [done|].
  simpl. destruct (Hrun n) as (st & -> & -> & ->); [lia|].
  apply IH. intros i ?. apply Hrun. lia.
Qed.

Lemma poll_skip job result fuel n k :
  (∀ i, (n ≤ i < n + k)%nat →
        ∃ st, get_status job i = Ret st ∧ st_success st = false
              ∧ st_running st = Some true) →
  poll job result (k + fuel) n = poll job result fuel (n + k).
Proof.
  revert n. induction k as [|k IH]; intros n Hrun.
  - by rewrite Nat.add_0_r.
  - simpl. destruct (Hrun n) as (st & -> & -> & ->); [lia|].
    rewrite IH; [f_equal; lia|]. intros i ?. apply Hrun. lia.
Qed.

(** X23.
    The poll loop ends at the first status that is a success or is no
    longer running: when the statuses before the [k]-th all say running,
    any number of polls above [k] gives the result for the [k]-th status
    (status "success", or ok false with status "failed: <message>", success
    being looked at first), and [k] polls or fewer leave the loop
    waiting. *)
Theorem poll_first_terminal job result (k fuel : nat) (st : Status) :
  (∀ i, (i < k)%nat →
        ∃ st', get_status job i = Ret st' ∧ st_success st' = false
               ∧ st_running st' = Some true) →
  get_status job k = Ret st →
  st_success st = true ∨ st_running st = Some false →
  ((k < fuel)%nat →
   poll job result fuel 0
   = Ret (Some (if st_success st
                then <["status" := JStr "success"]> result
                else <["ok" := JBool false]>
                       (<["status" := JStr ("failed: " +:+ st_message st)]>
                          result))))
  ∧ ((fuel ≤ k)%nat → poll job result fuel 0 = Ret None).
Proof.
  intros Hrun Hk Hterm. split.
  - intros Hlt. replace fuel with (k + S (fuel - S k))%nat by lia.
    rewrite poll_skip by (intros i ?; apply Hrun; lia).
    simpl. rewrite Hk. destruct (st_success st); [done|].
    by destruct Hterm as [? | ->].
  - intros Hle. apply poll_running. intros i ?. apply Hrun. lia.
Qed.

Lemma poll_result job result fuel n result' :
  poll job result fuel n = Ret (Some result') →
  result' = <["status" := JStr "success"]> result
  ∨ ∃ st, result' = <["ok" := JBool false]>
                      (<["status" := JStr ("failed: " +:+ st_message st)]>
                         result).
Proof.
  revert n. induction fuel as [|fuel IH]; intros n; simpl; [done|].
  destruct (get_status job n) as [st|]; [|done].
  destruct (st_success st); [intros [= <-]; by left|].
  destruct (st_running st) as [[]|]; [by apply IH| |done].
  intros [= <-]. right. by exists st.
Qed.

(** The object that [do_compile] starts from once the job is submitted. *)
Lemma submitted_lookup (job_id device : string) :
  let result : gmap string json :=
    {[ "ok" := JBool true; "job_id" := JStr job_id;
       "job_url" := JStr ("https://aihub.qualcomm.com/jobs/" +:+ job_id);
       "status" := JStr "submitted"; "device" := JStr device ]} in
  result !! "ok" = Some (JBool true)
  ∧ result !! "job_id" = Some (JStr job_id)
  ∧ result !! "job_url"
    = Some (JStr ("https://aihub.qualcomm.com/jobs/" +:+ job_id))
  ∧ result !! "status" = Some (JStr "submitted")
  ∧ result !! "device" = Some (JStr device)
  ∧ result !! "error" = None
  ∧ result !! "download_error" = None
  ∧ result !! "artifact_path" = None.
Proof. repeat split; by simplify_map_eq. Qed.

Lemma error_json_lookup msg :
  error_json msg !! "ok" = Some (JBool false)
  ∧ error_json msg !! "error" = Some (JStr msg).
Proof. unfold error_json. split; by simplify_map_eq. Qed.

(** The poll loop touches the fields [ok] and [status] only, and the
    download step the fields [download_error] and [artifact_path] only. *)
Lemma poll_keeps job result fuel n result' (k : string) :
  poll job result fuel n = Ret (Some result') →
  k ≠ "ok" → k ≠ "status" → result' !! k = result !! k.
Proof.
  intros [->|[st ->]]%poll_result ? ?; by rewrite !lookup_insert_ne.
Qed.

Lemma poll_ok_status job result fuel n result' :
  poll job result fuel n = Ret (Some result') →
  (result' !! "ok" = result !! "ok"
   ∧ result' !! "status" = Some (JStr "success"))
  ∨ (result' !! "ok" = Some (JBool false)
     ∧ ∃ m, result' !! "status" = Some (JStr ("failed: " +:+ m))).
Proof.
  intros [->|[st ->]]%poll_result.
  - left. by rewrite lookup_insert_ne, lookup_insert_eq.
  - right. rewrite lookup_insert_eq. split; [done|]. exists (st_message st).
    by rewrite lookup_insert_ne, lookup_insert_eq.
Qed.

Lemma fetch_artifact_keeps job out result j (k : string) :
  fetch_artifact os job out result = Printed j →
  k ≠ "download_error" → k ≠ "artifact_path" → j !! k = result !! k.
Proof.
  unfold fetch_artifact. intros Hj ? ?.
  destruct (is_ok result && _); [|by simplify_eq].
  destruct (os_makedirs os out); [|done].
  destruct (get_target_model job) as [[target|]|];
    [destruct (download target _)|..];
    simplify_eq; by rewrite ?lookup_insert_ne.
Qed.

Lemma is_ok_true result : is_ok result = true → result !! "ok" = Some (JBool true).
Proof.
  unfold is_ok. destruct (result !! "ok") as [[[]| | |]|]; done.
Qed.

(** X24.
    Every object the compile command prints has an [ok] field.  When [ok]
    is true the object names the job, its URL and the requested device;
    when [ok] is false it has an [error] field or, for a job that ended
    while the command was waiting, a status "failed: <message>" and no
    [error] field. *)
Theorem do_compile_printed_shape model device options (wait : bool) out
    (fuel : nat) j :
  do_compile hub os model device options wait out fuel = Printed j →
  (j !! "ok" = Some (JBool true)
   ∧ ∃ job_id, j !! "job_id" = Some (JStr job_id)
               ∧ j !! "job_url"
                 = Some (JStr ("https://aihub.qualcomm.com/jobs/" +:+ job_id))
               ∧ j !! "device" = Some (JStr device))
  ∨ (j !! "ok" = Some (JBool false)
     ∧ (is_Some (j !! "error")
        ∨ (j !! "error" = None
           ∧ ∃ m, j !! "status" = Some (JStr ("failed: " +:+ m))))).
Proof.
  unfold do_compile.
  assert (∀ msg, Printed (error_json msg) = Printed j →
            j !! "ok" = Some (JBool false) ∧ is_Some (j !! "error")) as Herror.
  { intros msg [= <-]. destruct (error_json_lookup msg) as [-> ->]. eauto. }
  destruct (get_devices hub device) as [[|dev devs]|]; [| |done].
  { intros [? ?]%Herror. auto. }
  destruct (negb _ && negb _).
  { intros [? ?]%Herror. auto. }
  destruct (submit_compile_job hub model dev _ options) as [job|].
  2:{ intros [? ?]%Herror. auto. }
  pose proof (submitted_lookup (default (job_str job) (job_id_attr job)) device)
    as (Hok & Hid & Hurl & Hst & Hdev & Herr & _).
  cbv zeta in *.
  destruct wait.
  2:{ intros [= <-]. left. split; [done|]. by eexists. }
  destruct (poll job _ fuel 0) as [[result'|]|] eqn:Ep; [|done..].
  intros Hj.
  destruct (poll_ok_status _ _ _ _ _ Ep) as [[Hok' _]|[Hok' (m & Hst')]].
  - left. rewrite !(fetch_artifact_keeps _ _ _ _ _ Hj) by done.
    rewrite Hok', Hok. rewrite !(poll_keeps _ _ _ _ _ _ Ep) by done.
    split; [done|]. by eexists.
  - right. rewrite !(fetch_artifact_keeps _ _ _ _ _ Hj) by done.
    rewrite Hok'. split; [done|]. right.
    rewrite (poll_keeps _ _ _ _ _ _ Ep) by done. split; [done|]. by exists m.
Qed.

(** X25.
    An object of the compile command with a [download_error] field still
    has [ok] true and the status "success", and has no [artifact_path]: a
    failed download after a successful job does not turn the result into a
    failure. *)
Theorem do_compile_download_error model device options (wait : bool) out
    (fuel : nat) j :
  do_compile hub os model device options wait out fuel = Printed j →
  is_Some (j !! "download_error") →
  j !! "ok" = Some (JBool true)
  ∧ j !! "status" = Some (JStr "success")
  ∧ j !! "artifact_path" = None.
Proof.
  unfold do_compile.
  assert (∀ msg, Printed (error_json msg) = Printed j →
            j !! "download_error" = None) as Herror.
  { intros msg [= <-]. unfold error_json. by simplify_map_eq. }
  destruct (get_devices hub device) as [[|dev devs]|]; [| |done].
  { intros ->%Herror [? ?]. done. }
  destruct (negb _ && negb _).
  { intros ->%Herror [? ?]. done. }
  destruct (submit_compile_job hub model dev _ options) as [job|].
  2:{ intros ->%Herror [? ?]. done. }
  pose proof (submitted_lookup (default (job_str job) (job_id_attr job)) device)
    as (Hok & _ & _ & _ & _ & _ & Hde & Hap).
  cbv zeta in *.
  destruct wait.
  2:{ intros [= <-]. rewrite Hde. by intros [? ?]. }
  destruct (poll job _ fuel 0) as [[result'|]|] eqn:Ep; [|done..].
  pose proof (poll_keeps _ _ _ _ _ "download_error" Ep
                ltac:(done) ltac:(done)) as Hde'.
  pose proof (poll_keeps _ _ _ _ _ "artifact_path" Ep
                ltac:(done) ltac:(done)) as Hap'.
  rewrite Hde in Hde'. rewrite Hap in Hap'.
  unfold fetch_artifact.
  destruct (is_ok result') eqn:Eok; simpl.
  2:{ intros [= <-]. rewrite Hde'. by intros [? ?]. }
  apply is_ok_true in Eok.
  destruct (poll_ok_status _ _ _ _ _ Ep) as [[_ Hst']|[Hok' _]];
    [|congruence].
  case_bool_decide.
  2:{ intros [= <-]. rewrite Hde'. by intros [? ?]. }
  destruct (os_makedirs os out); [|done].
  destruct (get_target_model job) as [[target|]|].
  - destruct (download target _); intros [= <-].
    + rewrite lookup_insert_ne, Hde' by done. by intros [? ?].
    + intros _. by rewrite !lookup_insert_ne.
  - intros [= <-]. rewrite Hde'. by intros [? ?].
  - intros [= <-] _. by rewrite !lookup_insert_ne.
Qed.

Lemma download_ok_lookup (job out_file : string) :
  ({[ "ok" := JBool true; "path" := JStr out_file; "job_id" := JStr job ]}
     : gmap string json) !! "ok" = Some (JBool true).
Proof. by simplify_map_eq. Qed.

(** X26.
    The download command prints an object with [ok] true exactly when the
    job is found, its status is a success, the output directory can be
    created, the job has a target model and the download does not raise;
    that object gives the path "<out>/model.bin".  In every other case the
    object has [ok] false and an [error] field with a message. *)
Theorem do_download_result (job out : string) :
  ∃ j, do_download hub os job out = Printed j
       ∧ ((∃ jb st target,
             get_job hub job = Ret jb ∧ get_status jb 0 = Ret st
             ∧ st_success st = true ∧ os_makedirs os out = Ret ()
             ∧ get_target_model jb = Ret (Some target)
             ∧ download target (path_join out "model.bin") = Ret ())
          ∧ j = {[ "ok" := JBool true;
                   "path" := JStr (path_join out "model.bin");
                   "job_id" := JStr job ]}
          ∨ (¬ (∃ jb st target,
                  get_job hub job = Ret jb ∧ get_status jb 0 = Ret st
                  ∧ st_success st = true ∧ os_makedirs os out = Ret ()
                  ∧ get_target_model jb = Ret (Some target)
                  ∧ download target (path_join out "model.bin") = Ret ())
             ∧ j !! "ok" = Some (JBool false)
             ∧ ∃ msg, j !! "error" = Some (JStr msg))).
Proof.
  assert (∀ msg, error_json msg !! "ok" = Some (JBool false)
                 ∧ ∃ msg', error_json msg !! "error" = Some (JStr msg'))
    as Hfail.
  { intros msg. destruct (error_json_lookup msg) as [-> ->]. eauto. }
  unfold do_download.
  destruct (get_job hub job) as [jb|] eqn:Ej.
  2:{ eexists. split; [done|]. right. split; [|apply Hfail].
      by intros (? & ? & ? & ? & _). }
  destruct (get_status jb 0) as [st|] eqn:Est.
  2:{ eexists. split; [done|]. right. split; [|apply Hfail].
      intros (? & ? & ? & ? & ? & _). congruence. }
  destruct (st_success st) eqn:Es; simpl.
  2:{ eexists. split; [done|]. right. split; [|apply Hfail].
      intros (? & ? & ? & ? & ? & ? & _). congruence. }
  destruct (os_makedirs os out) as [[]|] eqn:Em.
  2:{ eexists. split; [done|]. right. split; [|apply Hfail].
      intros (? & ? & ? & ? & ? & ? & ? & _). congruence. }
  destruct (get_target_model jb) as [[target|]|] eqn:Et.
  2,3:(eexists; split; [done|]; right; split; [|apply Hfail];
       intros (? & ? & ? & ? & ? & ? & ? & ? & _); congruence).
  destruct (download target _) as [[]|] eqn:Edl.
  - eexists. split; [done|]. left. split; [|done]. by exists jb, st, target.
  - eexists. split; [done|]. right. split; [|apply Hfail].
    intros (? & ? & ? & ? & ? & ? & ? & ? & ?). congruence.
Qed.

(** X27.
    The status command always prints an object with the requested job id.
    When the job is found and its status is returned, the object gives the
    status message, the success flag and the running flag (false when the
    status has no such attribute) and has no [error] field.  When looking up
    the job or asking for its status raises, the object has [success] false,
    the status "error", the exception's message as [error], and no
    [running] field. *)
Theorem do_status_shape (job : string) :
  ∃ j, do_status hub job = Printed j
       ∧ j !! "job_id" = Some (JStr job)
       ∧ (∀ jb st,
            get_job hub job = Ret jb → get_status jb 0 = Ret st →
            j !! "status" = Some (JStr (st_message st))
            ∧ j !! "success" = Some (JBool (st_success st))
            ∧ j !! "running" = Some (JBool (default false (st_running st)))
            ∧ j !! "error" = None)
       ∧ (∀ msg,
            get_job hub job = Exc msg
            ∨ (∃ jb, get_job hub job = Ret jb ∧ get_status jb 0 = Exc msg) →
            j !! "status" = Some (JStr "error")
            ∧ j !! "success" = Some (JBool false)
            ∧ j !! "error" = Some (JStr msg)
            ∧ j !! "running" = None).
Proof.
  assert (∀ msg, let j := status_error job msg in
            j !! "job_id" = Some (JStr job)
            ∧ j !! "status" = Some (JStr "error")
            ∧ j !! "success" = Some (JBool false)
            ∧ j !! "error" = Some (JStr msg)
            ∧ j !! "running" = None) as Herror.
  { intros msg. unfold status_error. cbv zeta.
    repeat split; by simplify_map_eq. }
  unfold do_status. destruct (get_job hub job) as [jb|msg] eqn:Ej.
  2:{ destruct (Herror msg) as (? & ? & ? & ? & ?).
      eexists. split; [done|]. split; [done|]. split; [done|].
      intros msg' [[= <-]|(jb & ? & _)]; done. }
  destruct (get_status jb 0) as [st|msg] eqn:Est.
  2:{ destruct (Herror msg) as (? & ? & ? & ? & ?).
      eexists. split; [done|]. split; [done|]. split.
      - intros jb' st [= <-]. by rewrite Est.
      - intros msg' [?|(jb' & [= <-] & Hst)]; [done|].
        rewrite Est in Hst. by injection Hst as <-. }
  eexists. split; [done|]. split; [by simplify_map_eq|]. split.
  - intros jb' st' [= <-]. rewrite Est. intros [= <-].
    repeat split; by simplify_map_eq.
  - intros msg [?|(jb' & [= <-] & Hst)]; [done|]. by rewrite Est in Hst.
Qed.

(** X28.
    The two list commands print a [count] that is the length of the list
    they print; every listed job has the fields [job_id], [status] and
    [name], every listed device the fields [name] and [os]; when the SDK
    call raises, the count is 0, the list is empty and there is an [error]
    field. *)
Theorem list_commands_count (limit : Z) (name : string) :
  (∃ j items, do_list_jobs hub limit = Printed j
      ∧ j !! "count" = Some (JInt (Z.of_nat (length items)))
      ∧ j !! "jobs" = Some (JList items)
      ∧ Forall (λ item, is_Some (item !! "job_id")
                        ∧ is_Some (item !! "status")
                        ∧ is_Some (item !! "name")) items
      ∧ (∀ msg, get_job_summaries hub limit = Exc msg →
                items = [] ∧ j !! "error" = Some (JStr msg)))
  ∧ (∃ j items, do_list_devices hub name = Printed j
      ∧ j !! "count" = Some (JInt (Z.of_nat (length items)))
      ∧ j !! "devices" = Some (JList items)
      ∧ Forall (λ item, is_Some (item !! "name") ∧ is_Some (item !! "os"))
               items
      ∧ (∀ msg, get_devices hub name = Exc msg →
                items = [] ∧ j !! "error" = Some (JStr msg))).
Proof.
  split.
  - unfold do_list_jobs. destruct (get_job_summaries hub limit) as [sums|msg].
    + eexists _, (summary_json <$> sums). split; [done|].
      split; [by simplify_map_eq|]. split; [by simplify_map_eq|].
      split; [|done]. apply Forall_fmap, Forall_forall. intros s _.
      unfold summary_json. simpl. repeat split;
        first [by simplify_map_eq | eexists; by simplify_map_eq].
    + eexists _, []. split; [done|].
      split; [by simplify_map_eq|]. split; [by simplify_map_eq|].
      split; [constructor|]. intros msg' [= <-]. split; [done|].
      by simplify_map_eq.
  - unfold do_list_devices. destruct (get_devices hub name) as [devs|msg].
    + eexists _, (device_json <$> devs). split; [done|].
      split; [by simplify_map_eq|]. split; [by simplify_map_eq|].
      split; [|done]. apply Forall_fmap, Forall_forall. intros d _.
      unfold device_json. simpl. repeat split;
        first [by simplify_map_eq | eexists; by simplify_map_eq].
    + eexists _, []. split; [done|].
      split; [by simplify_map_eq|]. split; [by simplify_map_eq|].
      split; [constructor|]. intros msg' [= <-]. split; [done|].
      by simplify_map_eq.
Qed.

End compile_behaviour.

(** ** The download helper *)

Section download_job.
Import PyStr Compile.

Variable os : Os.

(** X29.
    How the download helper ends.  It exits with 0 only after the
    download, with nothing on standard error and the saved path as its last
    line; it exits with 1 with exactly one line on standard error, which
    starts with "ERROR: "; and it ends in an unhandled exception only
    when the status call, the creation of the directory, the lookup of the
    target model or the download raises.  It never waits. *)
Theorem download_job_end (hub : option Hub) (job out : string) :
  match DownloadJob.main hub os job out with
  | Exited code printed =>
      (code = 0
       ∧ DownloadJob.stderr_lines printed = []
       ∧ last (DownloadJob.stdout_lines printed)
         = Some ("Compiled model saved to: " +:+ path_join out "model.bin"))
      ∨ (code = 1
         ∧ ∃ text, DownloadJob.stderr_lines printed = ["ERROR: " +:+ text])
  | Unhandled msg =>
      ∃ h jb, hub = Some h ∧ get_job h job = Ret jb
              ∧ (get_status jb 0 = Exc msg
                 ∨ os_makedirs os out = Exc msg
                 ∨ get_target_model jb = Exc msg
                 ∨ ∃ target, get_target_model jb = Ret (Some target)
                             ∧ download target (path_join out "model.bin")
                               = Exc msg)
  | Waiting => False
  end.
Proof.
  unfold DownloadJob.main. destruct hub as [h|].
  2:{ right. split; [done|]. by eexists. }
  destruct (get_job h job) as [jb|] eqn:Ej.
  2:{ right. split; [done|]. by eexists. }
  destruct (get_status jb 0) as [st|] eqn:Est.
  2:{ exists h, jb. auto. }
  destruct (st_success st); simpl.
  2:{ right. split; [done|]. by eexists. }
  destruct (os_makedirs os out) as [|] eqn:Em.
  2:{ exists h, jb. auto. }
  destruct (get_target_model jb) as [[target|]|] eqn:Et.
  - destruct (download target _) as [|] eqn:Edl.
    + by left.
    + exists h, jb. split; [done|]. split; [done|]. do 3 right. by exists target.
  - right. split; [done|]. by eexists.
  - exists h, jb. auto 6.
Qed.

(** X30.
    The download helper and the download command of the compile helper
    agree on success: for the same SDK and file system the helper exits
    with 0 exactly when the command prints an object with [ok] true. *)
Theorem download_helpers_agree (hub : Hub) (job out : string) :
  (∃ printed, DownloadJob.main (Some hub) os job out = Exited 0 printed)
  ↔ (∃ j, do_download hub os job out = Printed j
          ∧ j !! "ok" = Some (JBool true)).
Proof.
  unfold DownloadJob.main, do_download.
  assert (∀ msg, error_json msg !! "ok" ≠ Some (JBool true)) as Hfail.
  { intros msg. by destruct (error_json_lookup msg) as [-> _]. }
  destruct (get_job hub job) as [jb|].
  2:{ split; [by intros [? ?]|]. intros (j & [= <-] & Hj). by apply Hfail in Hj. }
  destruct (get_status jb 0) as [st|].
  2:{ split; [by intros [? ?]|]. intros (j & [= <-] & Hj). by apply Hfail in Hj. }
  destruct (st_success st); simpl.
  2:{ split; [by intros [? ?]|]. intros (j & [= <-] & Hj). by apply Hfail in Hj. }
  destruct (os_makedirs os out).
  2:{ split; [by intros [? ?]|]. intros (j & [= <-] & Hj). by apply Hfail in Hj. }
  destruct (get_target_model jb) as [[target|]|].
  2,3:(split; [by intros [? ?]|]; intros (j & [= <-] & Hj);
       by apply Hfail in Hj).
  destruct (download target _).
  - split; intros _; eexists; [split; [done|]|done].
    apply download_ok_lookup.
  - split; [by intros [? ?]|]. intros (j & [= <-] & Hj). by apply Hfail in Hj.
Qed.

End download_job.

(** ** The behaviour theorems at concrete inputs *)

Section exporter_examples.
Import PyStr Exporter Scenario.

Lemma auto_select_first_x_elite_witness :
  auto_select_device (Completed 0 listing_phone_first "")
  = ("Snapdragon X Elite CRD", reason2).
Proof.
  apply (auto_select_first_x_elite listing_phone_first ""
           [("Samsung Galaxy S24",
             "Samsung Galaxy S24         | Android 14  | Snapdragon 8 Gen 3")]
           ("Snapdragon X Elite CRD",
            "Snapdragon X Elite CRD     | Windows 11  | Snapdragon X Elite")
           []).
  - reflexivity.
  - constructor; [reflexivity|constructor].
  - reflexivity.
Defined.

Lemma auto_select_first_device_witness :
  auto_select_device (Completed 0 listing_other_windows "")
  = ("Samsung Galaxy S24", reason4).
Proof.
  apply (auto_select_first_device listing_other_windows ""
           ("Samsung Galaxy S24",
            "Samsung Galaxy S24         | Android 14  | Snapdragon 8 Gen 3")
           [("Snapdragon 8cx Gen 3 CRD",
             "Snapdragon 8cx Gen 3 CRD   | Windows 11  | Snapdragon 8cx Gen 3")]).
  - reflexivity.
  - repeat constructor.
Defined.

Lemma auto_select_no_device_lines_witness :
  auto_select_device (Completed 0 listing_header_only "")
  = ("", "No devices found").
Proof.
  apply (auto_select_no_device_lines listing_header_only "").
  apply Forall_forall. vm_compute. repeat constructor.
Defined.

Lemma auto_select_device_line_witness :
  ∃ d, d ∈ parse_devices listing
       ∧ (auto_select_device (Completed 0 listing "")).1 = d.1
       ∧ d.1 ≠ "".
Proof.
  apply (auto_select_device_line listing ""
           "Samsung Galaxy S24         | Android 14  | Snapdragon 8 Gen 3").
  - apply (bool_decide_unpack _). vm_compute. exact I.
  - reflexivity.
Defined.

Lemma resolve_sound_witness :
  "stable_diffusion_v1_5" ∈ ["resnet50"; "stable_diffusion_v1_5"]
  ∧ ("stable_diffusion_v1_5" = normalize "sd-v1.5"
     ∨ MODEL_ALIASES !! alias_key "sd-v1.5" = Some "stable_diffusion_v1_5"
     ∨ MODEL_ALIASES !! normalize "sd-v1.5" = Some "stable_diffusion_v1_5"
     ∨ contains (normalize "sd-v1.5") "stable_diffusion_v1_5" = true
     ∨ contains "stable_diffusion_v1_5" (normalize "sd-v1.5") = true).
Proof.
  apply (resolve_sound "sd-v1.5" ["resnet50"; "stable_diffusion_v1_5"]
           "stable_diffusion_v1_5").
  reflexivity.
Defined.

Lemma resolve_None_inv_witness :
  (normalize "Whisper-Tiny" ∉ ["resnet50"; "stable_diffusion_v1_5"])
  ∧ (∀ model, model ∈ ["resnet50"; "stable_diffusion_v1_5"] →
              contains (normalize "Whisper-Tiny") model = false
              ∧ contains model (normalize "Whisper-Tiny") = false).
Proof.
  destruct (resolve_None_inv "Whisper-Tiny"
              ["resnet50"; "stable_diffusion_v1_5"]) as (H1 & _ & _ & H4).
  - reflexivity.
  - split; [exact H1|exact H4].
Defined.

Lemma resolve_fuzzy_first_witness :
  resolve_model_name "Llama" ["baichuan2_7b"; "llama_v2_7b"; "llama_v3_8b"]
  = Some "llama_v2_7b".
Proof.
  apply (resolve_fuzzy_first "Llama" ["baichuan2_7b"] "llama_v2_7b"
           ["llama_v3_8b"]).
  - apply (bool_decide_unpack _). vm_compute. exact I.
  - intros resolved H. vm_compute in H. discriminate H.
  - intros resolved H. vm_compute in H. discriminate H.
  - constructor; [split; reflexivity|constructor].
  - left. reflexivity.
Defined.

Lemma requested_models_stripped_witness :
  "sd-v1.5" ≠ "" ∧ strip "sd-v1.5" = "sd-v1.5".
Proof.
  apply (requested_models_stripped " sd-v1.5 ,, resnet50" "sd-v1.5").
  apply (bool_decide_unpack _). vm_compute. exact I.
Defined.

(** The default of [--models] is read back as [DEFAULT_MODELS]. *)
Lemma requested_models_join_witness :
  requested_models (args_models default_args) = DEFAULT_MODELS.
Proof.
  apply (requested_models_join DEFAULT_MODELS).
  repeat constructor; discriminate.
Defined.

Lemma export_zero_exit_without_files_witness :
  dir_has_files env_files_elsewhere "/etc" = Ret true
  ∧ success (export_model "resnet50" "Samsung Galaxy S24" "out" "tflite" 1800
               env_files_elsewhere) = true
  ∧ output_path (export_model "resnet50" "Samsung Galaxy S24" "out" "tflite"
                   1800 env_files_elsewhere) = "out/resnet50"
  ∧ error_msg (export_model "resnet50" "Samsung Galaxy S24" "out" "tflite"
                 1800 env_files_elsewhere)
    = "Export succeeded but output location unclear".
Proof.
  split; [reflexivity|].
  apply (export_zero_exit_without_files "resnet50" "Samsung Galaxy S24" "out"
           "tflite" 1800 env_files_elsewhere "done" "");
    [reflexivity..|repeat constructor].
Defined.

Lemma main_no_requested_model_witness :
  Exporter.main (args_with " , ," false false) world_ok = (1, []).
Proof.
  apply (main_no_requested_model (args_with " , ," false false) world_ok);
    reflexivity.
Defined.

Lemma main_explicit_device_witness :
  Exporter.main args_device_given world_listing_fails
  = Exporter.main args_device_given world_ok
  ∧ Forall (λ r, device r = "Samsung Galaxy S24 (Family)")
           (Exporter.main args_device_given world_ok).2.
Proof.
  apply (main_explicit_device args_device_given world_ok world_listing_fails);
    [discriminate|reflexivity..].
Defined.

End exporter_examples.

Section compile_witnesses.
Import PyStr Compile Scenario.

Lemma other_commands_exit_zero_witness :
  ∃ j, Compile.main (Some hub_status_fails) an_os (Some (CmdStatus "j123")) 0
       = Exited 0 (Some j).
Proof.
  apply (other_commands_exit_zero hub_status_fails an_os (CmdStatus "j123") 0).
  reflexivity.
Defined.

Lemma main_exit_code_meaning_witness :
  (0 = 1 ∧ (Some hub_status_fails = None
            ∨ Some (CmdStatus "j123") = None))
  ∨ (0 = 0
     ∧ ∃ h' c' j,
         Some hub_status_fails = Some h' ∧ Some (CmdStatus "j123") = Some c'
         ∧ Some (status_error "j123" "ConnectionError: status") = Some j
         ∧ run_command h' an_os c' 0 = Printed j).
Proof.
  apply (main_exit_code_meaning an_os (Some hub_status_fails)
           (Some (CmdStatus "j123")) 0 0
           (Some (status_error "j123" "ConnectionError: status"))).
  reflexivity.
Defined.


Lemma do_compile_model_id_unchecked_witness :
  do_compile hub_slow os_without_files "model.onnx"
             "Samsung Galaxy S24 (Family)" "" false "" 0
  = do_compile hub_slow an_os "model.onnx"
               "Samsung Galaxy S24 (Family)" "" false "" 0.
Proof.
  apply (do_compile_model_id_unchecked hub_slow an_os os_without_files
           "model.onnx" "Samsung Galaxy S24 (Family)" "" false "" 0);
    reflexivity.
Defined.

Lemma poll_first_terminal_witness :
  poll slow_job ∅ 3 0 = Ret (Some (<["status" := JStr "success"]> ∅))
  ∧ poll slow_job ∅ 2 0 = Ret None.
Proof.
  destruct (poll_first_terminal slow_job ∅ 2 3
              {| st_message := "done"; st_success := true;
                 st_running := Some false |}) as [Hdone _].
  { intros i Hi. eexists. destruct i as [|[|i]]; [by split..|lia]. }
  { reflexivity. }
  { by left. }
  destruct (poll_first_terminal slow_job ∅ 2 2
              {| st_message := "done"; st_success := true;
                 st_running := Some false |}) as [_ Hwait].
  { intros i Hi. eexists. destruct i as [|[|i]]; [by split..|lia]. }
  { reflexivity. }
  { by left. }
  split; [apply Hdone; lia|apply Hwait; lia].
Defined.

Lemma do_compile_printed_shape_witness :
  ∃ j, do_compile hub_slow an_os "model.onnx" "Samsung Galaxy S24 (Family)"
                  "" true "artifacts" 5 = Printed j
       ∧ ((j !! "ok" = Some (JBool true)
           ∧ ∃ job_id, j !! "job_id" = Some (JStr job_id)
                       ∧ j !! "job_url"
                         = Some (JStr ("https://aihub.qualcomm.com/jobs/"
                                       +:+ job_id))
                       ∧ j !! "device"
                         = Some (JStr "Samsung Galaxy S24 (Family)"))
          ∨ (j !! "ok" = Some (JBool false)
             ∧ (is_Some (j !! "error")
                ∨ (j !! "error" = None
                   ∧ ∃ m, j !! "status" = Some (JStr ("failed: " +:+ m)))))).
Proof.
  eexists. split; [reflexivity|].
  apply (do_compile_printed_shape hub_slow an_os "model.onnx"
           "Samsung Galaxy S24 (Family)" "" true "artifacts" 5).
  reflexivity.
Defined.

Lemma do_compile_download_error_witness :
  ∃ j, do_compile hub_slow an_os "model.onnx" "Samsung Galaxy S24 (Family)"
                  "" true "artifacts" 5 = Printed j
       ∧ j !! "download_error" = Some (JStr "ConnectionError: target")
       ∧ j !! "ok" = Some (JBool true)
       ∧ j !! "status" = Some (JStr "success")
       ∧ j !! "artifact_path" = None.
Proof.
  eexists. split; [reflexivity|]. split; [reflexivity|].
  apply (do_compile_download_error hub_slow an_os "model.onnx"
           "Samsung Galaxy S24 (Family)" "" true "artifacts" 5).
  - reflexivity.
  - eexists. reflexivity.
Defined.

End compile_witnesses.
